(** * Customer Churn Early Warning System: the dashboard script [app.py]

    A shallow embedding of the Streamlit script: the feature-engineering
    transform, the zero-fill and column selection against the trained
    feature list, the guarded inference call, the threshold branching into
    risk tiers and recommendation banners, the risk-factor rules and the
    start-up loading of the two pickled artifacts.

    Numbers.  Python [int] is [Z].  The floats that the widgets return
    ([balance], [estimated_salary]) are finite and are modelled by the
    rational they denote, with exact arithmetic: rounding of binary64 is not
    modelled.  The classifier is opaque, so what it returns is a [pyfloat],
    which may also be an infinity or NaN; comparisons on it follow IEEE 754
    as Python implements them. *)

From Stdlib Require Import ZArith QArith String List Bool Lia Lqa.
Import ListNotations.

Local Open Scope string_scope.
Local Open Scope Z_scope.

(** ** Python values *)

Module Py.

(** A float as the classifier may return it. *)
Inductive pyfloat : Type :=
| Finite (q : Q)
| PosInf
| NegInf
| NaN.

(** [x >= n] for a float [x] and an int literal [n]. *)
Definition float_ge_int (x : pyfloat) (n : Z) : bool :=
  match x with
  | Finite q => Qle_bool (inject_Z n) q
  | PosInf => true
  | NegInf => false
  | NaN => false
  end.

(** [x * n] for a float [x] and a positive int literal [n]: the exact
    product.  The binary64 product rounds, so the two can fall on
    different sides of a cut-off (0.7 * 100 is 70.0 in binary64, while the
    double nearest 0.7 is below 7/10); statements about tiers are made on
    the percentage, not on the probability. *)
Definition float_mul_int (x : pyfloat) (n : Z) : pyfloat :=
  match x with
  | Finite q => Finite (q * inject_Z n)
  | PosInf => PosInf
  | NegInf => NegInf
  | NaN => NaN
  end.

(** [x > n] and [x == n] for a finite float and an int literal. *)
Definition Qgt_int (x : Q) (n : Z) : bool := negb (Qle_bool x (inject_Z n)).
Definition Qeq_int (x : Q) (n : Z) : bool := Qeq_bool x (inject_Z n).

(** The cells of the one-row frame: ints and floats. *)
Inductive pyval : Type :=
| PyInt (z : Z)
| PyFloat (q : Q).

(** The exceptions the script can meet.  All derive from [Exception]
    except [StopException], which [st.stop()] raises to end the run and
    which derives from [BaseException]. *)
Inductive exn : Type :=
| ZeroDivisionError
| TypeError (msg : string)
| KeyError (key : string)
| IndexError
| FileNotFoundError (path : string)
| UnpicklingError
| ModelError (msg : string)
| StopException.

Definition is_Exception (e : exn) : bool :=
  match e with
  | StopException => false
  | _ => true
  end.

(** [str(e)], with the texts of CPython's built-in types; numpy and
    pandas word theirs differently (a numpy row says "index 1 is out of
    bounds for axis 0 with size 1").  No statement depends on a text. *)
Definition str (e : exn) : string :=
  match e with
  | ZeroDivisionError => "division by zero"
  | TypeError msg => msg
  | KeyError key => "'" ++ key ++ "'"
  | IndexError => "index out of range"
  | FileNotFoundError path => "[Errno 2] No such file or directory: '" ++ path ++ "'"
  | UnpicklingError => "invalid load key"
  | ModelError msg => msg
  | StopException => ""
  end.

(** An expression either has a value or raises. *)
Inductive result (A : Type) : Type :=
| Ok (a : A)
| Raise (e : exn).
Arguments Ok {A} a.
Arguments Raise {A} e.

Definition rbind {A B : Type} (r : result A) (k : A -> result B) : result B :=
  match r with
  | Ok a => k a
  | Raise e => Raise e
  end.

(** True division [a / b]: int by int, float by float.  A zero divisor
    raises, for floats as for ints.  Ints are unbounded here and convert
    to float without failing; Python raises [OverflowError] past the range
    of binary64, so statements about which exceptions are raised assume
    ints of 64 bits ([int64] below). *)
Definition truediv_int (a b : Z) : result Q :=
  if b =? 0 then Raise ZeroDivisionError else Ok (inject_Z a / inject_Z b)%Q.

Definition truediv (a b : Q) : result Q :=
  if Qeq_bool b 0 then Raise ZeroDivisionError else Ok (a / b)%Q.

(** [xs[i]] on a sequence. *)
Definition getitem {A : Type} (xs : list A) (i : nat) : result A :=
  match nth_error xs i with
  | Some x => Ok x
  | None => Raise IndexError
  end.

(** *** Dictionaries and the one-row frame

    A [dict] keeps insertion order, and a frame built from a list of one
    dict has the dict's keys as its columns, in that order.  Both are
    ordered association lists with distinct keys. *)
Definition dict : Type := list (string * pyval).

Fixpoint get (k : string) (d : dict) : option pyval :=
  match d with
  | [] => None
  | (k', v) :: d' => if String.eqb k k' then Some v else get k d'
  end.

(** [d[k] = v]: overwrite in place when the key exists, append otherwise. *)
Fixpoint setitem (k : string) (v : pyval) (d : dict) : dict :=
  match d with
  | [] => [(k, v)]
  | (k', v') :: d' =>
      if String.eqb k k' then (k, v) :: d' else (k', v') :: setitem k v d'
  end.

(** [k in d], also [k in df.columns]. *)
Definition contains (k : string) (d : dict) : bool :=
  match get k d with
  | Some _ => true
  | None => false
  end.

Definition columns (d : dict) : list string := map fst d.

(** [df[names]] for a list of names: the named columns in the order of
    the list; a name that is no column raises [KeyError]. *)
Fixpoint select (names : list string) (df : dict) : result dict :=
  match names with
  | [] => Ok []
  | n :: rest =>
      match get n df with
      | None => Raise (KeyError n)
      | Some v => rbind (select rest df) (fun cols => Ok ((n, v) :: cols))
      end
  end.

End Py.
Import Py.

(** ** The script monad

    A run of the script leaves a trace of what it opened and what it handed
    to the page, and ends with a value or with an exception that nothing in
    the script caught.  What was emitted before an exception stays
    emitted. *)

Module Script.

(** One entry per Streamlit call that the script makes with computed
    content; calls with fixed layout content are grouped by block. *)
Inductive event : Type :=
| io_open (path : string)                              (* open(path, 'rb') *)
| st_page_setup                                        (* lines 8-50 *)
| st_header                                            (* lines 68-70 *)
| st_sidebar_inputs                                    (* lines 73-105 *)
| st_error (body : string)
| st_warning (body : string)
| st_success (body : string)
| st_info (body : string)
| st_markdown (body : string)
| st_risk_display (risk_class risk_level : string) (churn_prob : pyfloat)
                                                       (* lines 179-182 *)
| st_gauge (value : pyfloat)                           (* lines 187-213 *)
| st_metric (label : string) (value : pyfloat)
| st_metric_text (label : string) (value : string)
| st_profile (balance_per_product tenure_age_ratio : Q) (* lines 277-303 *)
| st_welcome                                           (* lines 336-394 *)
| st_footer.                                           (* lines 397-404 *)

Definition script (A : Type) : Type := (list event * result A)%type.

Definition ret {A : Type} (a : A) : script A := ([], Ok a).

Definition bind {A B : Type} (m : script A) (k : A -> script B) : script B :=
  match m with
  | (t, Ok a) => let (t', r) := k a in ((t ++ t')%list, r)
  | (t, Raise e) => (t, Raise e)
  end.

Definition emit (ev : event) : script unit := ([ev], Ok tt).

Definition lift {A : Type} (r : result A) : script A := ([], r).

Definition raise {A : Type} (e : exn) : script A := ([], Raise e).

(** [try: body  except <class>: handler], the class given by the test
    [catches]. *)
Definition try_except {A : Type} (body : script A) (catches : exn -> bool)
    (handler : exn -> script A) : script A :=
  match body with
  | (t, Ok a) => (t, Ok a)
  | (t, Raise e) =>
      if catches e then let (t', r) := handler e in ((t ++ t')%list, r)
      else (t, Raise e)
  end.

Definition trace {A : Type} (m : script A) : list event := fst m.
Definition outcome {A : Type} (m : script A) : result A := snd m.

End Script.
Import Script.

Declare Scope script_scope.
Delimit Scope script_scope with script.
Notation "x <- m ;; k" := (bind m (fun x => k))
  (at level 61, m at next level, right associativity) : script_scope.
Notation "m ;; k" := (bind m (fun _ => k))
  (at level 61, right associativity) : script_scope.

Local Open Scope script_scope.

(** ** The application *)

(** What the sidebar widgets of lines 77-102 return. *)
Record CustomerRecord : Type := {
  credit_score : Z;
  geography : string;
  gender : string;
  age : Z;
  tenure : Z;
  balance : Q;
  num_products : Z;
  has_credit_card : bool;
  is_active : bool;
  estimated_salary : Q
}.

(** The ranges and option lists the widgets enforce. *)
Definition valid_record (r : CustomerRecord) : Prop :=
  300 <= credit_score r <= 850 /\
  In (geography r) ["France"; "Germany"; "Spain"] /\
  In (gender r) ["Male"; "Female"] /\
  18 <= age r <= 100 /\
  0 <= tenure r <= 10 /\
  (0 <= balance r /\ balance r <= 300000)%Q /\
  In (num_products r) [1; 2; 3; 4] /\
  (0 <= estimated_salary r /\ estimated_salary r <= 200000)%Q.

Definition int_of_bool (b : bool) : pyval := PyInt (if b then 1 else 0).

(** Lines 133-141: the pair (CreditCategory_Good, CreditCategory_Excellent). *)
Definition credit_category (credit_score : Z) : Z * Z :=
  if credit_score <? 600 then (0, 0)
  else if credit_score <? 700 then (1, 0)
  else (0, 1).

(** The three denominators of lines 125, 126 and 130. *)
Definition tenure_age_den (r : CustomerRecord) : Z := age r + 1.
Definition balance_product_den (r : CustomerRecord) : Q :=
  (inject_Z (num_products r) + 0.01)%Q.
Definition balance_salary_den (r : CustomerRecord) : Q :=
  (estimated_salary r + 1)%Q.

(** Lines 110-141: the dict [input_data]. *)
Definition input_data (r : CustomerRecord) : result dict :=
  let d :=
    [ ("CreditScore", PyInt (credit_score r));
      ("Age", PyInt (age r));
      ("Tenure", PyInt (tenure r));
      ("Balance", PyFloat (balance r));
      ("NumOfProducts", PyInt (num_products r));
      ("HasCrCard", int_of_bool (has_credit_card r));
      ("IsActiveMember", int_of_bool (is_active r));
      ("EstimatedSalary", PyFloat (estimated_salary r));
      ("Gender", int_of_bool (String.eqb (gender r) "Male"));
      ("Geography_Germany", int_of_bool (String.eqb (geography r) "Germany"));
      ("Geography_Spain", int_of_bool (String.eqb (geography r) "Spain")) ] in
  rbind (truediv_int (tenure r) (tenure_age_den r)) (fun tar =>
  let d := setitem "TenureAgeRatio" (PyFloat tar) d in
  rbind (truediv (balance r) (balance_product_den r)) (fun bpp =>
  let d := setitem "BalancePerProduct" (PyFloat bpp) d in
  let d := setitem "HighValueCustomer"
             (int_of_bool (Qgt_int (balance r) 100000)) d in
  let d := setitem "ActiveSenior"
             (int_of_bool (is_active r && (50 <=? age r))) d in
  let d := setitem "ProductDiversity"
             (int_of_bool (existsb (Z.eqb (num_products r)) [2; 3])) d in
  rbind (truediv (balance r) (balance_salary_den r)) (fun bsr =>
  let d := setitem "BalanceSalaryRatio" (PyFloat bsr) d in
  let '(good, excellent) := credit_category (credit_score r) in
  let d := setitem "CreditCategory_Good" (PyInt good) d in
  let d := setitem "CreditCategory_Excellent" (PyInt excellent) d in
  Ok d))).

(** What [pickle.load] hands back for [model_features.pkl]: the list of
    column names, or an object that a [for] loop cannot iterate.  Other
    iterables (a tuple, a string, an array) are not modelled; statements
    about the frame are made for a list. *)
Inductive features_obj : Type :=
| FeatureList (names : list string)
| NotIterable (type_name : string).

Definition iter (o : features_obj) : result (list string) :=
  match o with
  | FeatureList names => Ok names
  | NotIterable ty =>
      Raise (TypeError ("'" ++ ty ++ "' object is not iterable")%string)
  end.

(** Lines 147-149: every trained name that is no column yet becomes a
    column of zeros, appended on the right. *)
Fixpoint zero_fill (feature_names : list string) (input_df : dict) : dict :=
  match feature_names with
  | [] => input_df
  | feature :: rest =>
      zero_fill rest
        (if negb (contains feature input_df)
         then setitem feature (PyInt 0) input_df
         else input_df)
  end.

(** Lines 110-152: the frame handed to the classifier. *)
Definition feature_vector (feature_names : features_obj) (r : CustomerRecord)
    : result dict :=
  rbind (input_data r) (fun input_df =>
  rbind (iter feature_names) (fun names =>
  select names (zero_fill names input_df))).

(** The classifier: an opaque object with two methods, each returning one
    entry per row of the frame, or raising. *)
Record Model : Type := {
  predict : dict -> result (list Z);
  predict_proba : dict -> result (list (list pyfloat))
}.

(** Lines 165-176: (risk_level, risk_color, risk_class). *)
Definition risk_level (churn_prob : pyfloat) : string * string * string :=
  if float_ge_int churn_prob 70 then ("HIGH RISK", "🔴", "risk-high")
  else if float_ge_int churn_prob 40 then ("MEDIUM RISK", "🟡", "risk-medium")
  else ("LOW RISK", "🟢", "risk-low").

(** Lines 234-271: the banner of the recommendation block and the heading
    of its fixed body. *)
Definition recommendation (churn_prob : pyfloat) : script unit :=
  if float_ge_int churn_prob 70 then
    emit (st_error "**URGENT ACTION REQUIRED**") ;;
    emit (st_markdown "**Immediate Steps (Within 24-48 hours):**")
  else if float_ge_int churn_prob 40 then
    emit (st_warning "**PROACTIVE ENGAGEMENT RECOMMENDED**") ;;
    emit (st_markdown "**Next Steps (Within 1-2 weeks):**")
  else
    emit (st_success "**STANDARD ENGAGEMENT**") ;;
    emit (st_markdown "**Ongoing Actions:**").

(** Lines 309-322: [risk_factors], built by appending. *)
Definition append_if (c : bool) (s : string) (l : list string) : list string :=
  if c then (l ++ [s])%list else l.

Definition risk_factors (r : CustomerRecord) : list string :=
  let l := [] in
  let l := append_if (45 <? age r)
             "• Age above 45 (higher churn correlation)" l in
  let l := append_if (String.eqb (geography r) "Germany")
             "• Located in Germany (highest churn region)" l in
  let l := append_if (3 <=? num_products r)
             "• Has 3+ products (potential over-complexity)" l in
  let l := append_if (negb (is_active r))
             "• Inactive member (low engagement)" l in
  let l := append_if (Qeq_int (balance r) 0)
             "• Zero balance (account not utilized)" l in
  let l := append_if (tenure r <? 2)
             "• New customer (< 2 years tenure)" l in
  l.

(** Lines 324-328. *)
Fixpoint markdown_each (factors : list string) : script unit :=
  match factors with
  | [] => ret tt
  | factor :: rest => emit (st_markdown factor) ;; markdown_each rest
  end.

Definition show_risk_factors (factors : list string) : script unit :=
  match factors with
  | [] => emit (st_markdown "No significant risk factors identified")
  | _ :: _ => markdown_each factors
  end.

(** Lines 277-303: the profile summary; its two "risk indicators" are
    computed while the text is formatted. *)
Definition profile_summary (r : CustomerRecord) : script unit :=
  bpp <- lift (truediv (balance r) (inject_Z (num_products r))) ;;
  tar <- lift (truediv_int (tenure r) (age r + 1)) ;;
  emit (st_profile bpp tar).

(** Lines 156-158: (prediction, probability, churn_prob). *)
Definition classify (model : Model) (input_df : dict)
    : result (Z * list pyfloat * pyfloat) :=
  rbind (rbind (predict model input_df) (fun ys => getitem ys 0))
    (fun prediction =>
  rbind (rbind (predict_proba model input_df) (fun ps => getitem ps 0))
    (fun probability =>
  rbind (getitem probability 1) (fun p1 =>
  Ok (prediction, probability, float_mul_int p1 100)))).

(** Lines 161-328: everything the [try] shows once the classifier has
    answered. *)
Definition render (probability : list pyfloat) (churn_prob : pyfloat)
    (r : CustomerRecord) : script unit :=
  let '(level, color, class) := risk_level churn_prob in
  emit (st_risk_display class level churn_prob) ;;
  emit (st_gauge churn_prob) ;;
  p0 <- lift (getitem probability 0) ;;
  emit (st_metric "Stay Probability" (float_mul_int p0 100)) ;;
  emit (st_metric "Churn Probability" churn_prob) ;;
  emit (st_metric_text "Risk Category" level) ;;
  recommendation churn_prob ;;
  profile_summary r ;;
  show_risk_factors (risk_factors r).

(** Lines 156-328: the body of the [try]. *)
Definition predict_and_render (model : Model) (input_df : dict)
    (r : CustomerRecord) : script unit :=
  answer <- lift (classify model input_df) ;;
  let '(prediction, probability, churn_prob) := answer in
  render probability churn_prob r.

(** Lines 330-332: the handler. *)
Definition prediction_error (e : exn) : script unit :=
  emit (st_error ("Prediction error: " ++ str e)%string) ;;
  emit (st_info "Please check that all features match your trained model.").

(** Lines 109-332: what the script does when the button was pressed.  The
    frame is built before the [try] is entered. *)
Definition predict_page (model : Model) (feature_names : features_obj)
    (r : CustomerRecord) : script unit :=
  input_df <- lift (feature_vector feature_names r) ;;
  try_except (predict_and_render model input_df r) is_Exception
    prediction_error.

(** *** Start-up *)

(** A pickle file on disk: missing, present but not loadable, or holding
    an object. *)
Inductive file (A : Type) : Type :=
| Absent
| Corrupt
| Pickled (a : A).
Arguments Absent {A}.
Arguments Corrupt {A}.
Arguments Pickled {A} a.

Record artifacts : Type := {
  model_file : file Model;
  features_file : file features_obj
}.

(** [with open(path, 'rb') as f: x = pickle.load(f)]. *)
Definition open_and_load {A : Type} (path : string) (f : file A) : script A :=
  emit (io_open path) ;;
  match f with
  | Absent => raise (FileNotFoundError path)
  | Corrupt => raise UnpicklingError
  | Pickled a => ret a
  end.

Definition is_FileNotFoundError (e : exn) : bool :=
  match e with
  | FileNotFoundError _ => true
  | _ => false
  end.

Definition model_files_not_found : string :=
  "Model files not found! Make sure 'customer_churn_rf_model.pkl' and 'model_features.pkl' are in the same folder as this app.".

(** Lines 54-63: the body of [load_model], which runs when the resource
    cache of line 53 holds no entry for it ([cached_load_model] below is
    the decorated function). *)
Definition load_model (fs : artifacts) : script (Model * features_obj) :=
  try_except
    (model <- open_and_load "customer_churn_rf_model.pkl" (model_file fs) ;;
     features <- open_and_load "model_features.pkl" (features_file fs) ;;
     ret (model, features))
    is_FileNotFoundError
    (fun _ => emit (st_error model_files_not_found) ;; raise StopException).

(** The state of the widgets in one run of the script. *)
Record session : Type := {
  inputs : CustomerRecord;
  predict_button : bool
}.

(** One run of the script, top to bottom, with an empty resource cache:
    the first run of the server, or any run after a load that failed. *)
Definition app (fs : artifacts) (ui : session) : script unit :=
  emit st_page_setup ;;
  loaded <- load_model fs ;;
  let '(model, feature_names) := loaded in
  emit st_header ;;
  emit st_sidebar_inputs ;;
  (if predict_button ui
   then predict_page model feature_names (inputs ui)
   else emit st_welcome) ;;
  emit st_footer.

(** ** Vocabulary of the specification *)

Inductive RiskTier : Type := LOW | MEDIUM | HIGH.

Definition tier_name (t : RiskTier) : string :=
  match t with
  | HIGH => "HIGH RISK"
  | MEDIUM => "MEDIUM RISK"
  | LOW => "LOW RISK"
  end.

(** The tier a run displays: the first component of [risk_level]. *)
Definition displayed_level (churn_prob : pyfloat) : string :=
  fst (fst (risk_level churn_prob)).

(** The recommendation block that goes with a tier. *)
Definition text_variant (t : RiskTier) : list event :=
  match t with
  | HIGH => [st_error "**URGENT ACTION REQUIRED**";
             st_markdown "**Immediate Steps (Within 24-48 hours):**"]
  | MEDIUM => [st_warning "**PROACTIVE ENGAGEMENT RECOMMENDED**";
               st_markdown "**Next Steps (Within 1-2 weeks):**"]
  | LOW => [st_success "**STANDARD ENGAGEMENT**";
            st_markdown "**Ongoing Actions:**"]
  end.

(** The six risk-factor rules in their fixed order. *)
Definition risk_rules : list ((CustomerRecord -> bool) * string) :=
  [ (fun r => 45 <? age r, "• Age above 45 (higher churn correlation)");
    (fun r => String.eqb (geography r) "Germany",
       "• Located in Germany (highest churn region)");
    (fun r => 3 <=? num_products r,
       "• Has 3+ products (potential over-complexity)");
    (fun r => negb (is_active r), "• Inactive member (low engagement)");
    (fun r => Qeq_int (balance r) 0, "• Zero balance (account not utilized)");
    (fun r => tenure r <? 2, "• New customer (< 2 years tenure)") ].

Definition rules_that_hold (r : CustomerRecord) : list string :=
  map snd (filter (fun rule => fst rule r) risk_rules).

(** Events that show a prediction or a part of one. *)
Definition is_result_event (ev : event) : bool :=
  match ev with
  | st_risk_display _ _ _ | st_gauge _ | st_metric _ _ | st_metric_text _ _
  | st_profile _ _ => true
  | _ => false
  end.

Definition is_error_report (ev : event) : bool :=
  match ev with
  | st_error _ => true
  | _ => false
  end.

(** The feature table the specification describes: every trained name with
    the value the transform gave it, or 0 where it gave none, in the order
    of the trained list. *)
Definition aligned (names : list string) (input_df : dict) : dict :=
  map (fun n => (n, match get n input_df with
                    | Some v => v
                    | None => PyInt 0
                    end)) names.

(** A handled failure: the run goes on to its end, an error box is shown
    and nothing of a prediction is. *)
Definition caught_and_reported (run : script unit) : Prop :=
  outcome run = Ok tt /\
  existsb is_error_report (trace run) = true /\
  existsb is_result_event (trace run) = false.

Definition opened (t : list event) : list string :=
  flat_map (fun ev => match ev with io_open p => [p] | _ => [] end) t.




(** ** Scenarios of the specification *)

Definition scenario_A : CustomerRecord :=
  {| credit_score := 650; geography := "France"; gender := "Male";
     age := 35; tenure := 5; balance := 75000; num_products := 1;
     has_credit_card := true; is_active := true;
     estimated_salary := 60000 |}.

Definition scenario_B (balance : Q) : CustomerRecord :=
  {| credit_score := 650; geography := "Germany"; gender := "Male";
     age := 55; tenure := 10; balance := balance; num_products := 4;
     has_credit_card := true; is_active := false;
     estimated_salary := 60000 |}.

(** A classifier that answers "stays" with probability 0.9 for every row. *)
Definition constant_model : Model :=
  {| predict := fun _ => Ok [0];
     predict_proba := fun _ => Ok [[Finite 0.9; Finite 0.1]] |}.

(** A classifier whose [predict] fails. *)
Definition failing_model : Model :=
  {| predict := fun _ => Raise (ModelError "X has 3 features, but RandomForestClassifier is expecting 19 features as input.");
     predict_proba := fun _ => Ok [[Finite 0.9; Finite 0.1]] |}.

Definition trained_names : list string :=
  ["CreditScore"; "Age"; "Tenure"; "Balance"; "NumOfProducts"; "HasCrCard";
   "IsActiveMember"; "EstimatedSalary"; "Gender"; "Geography_Germany";
   "Geography_Spain"; "TenureAgeRatio"; "BalancePerProduct";
   "HighValueCustomer"; "ActiveSenior"; "ProductDiversity";
   "BalanceSalaryRatio"; "CreditCategory_Good"; "CreditCategory_Excellent"].

(** The dict of lines 110-141 written out, for given values of the three
    quotients. *)
Definition feature_table (r : CustomerRecord) (tar bpp bsr : Q) : dict :=
  [ ("CreditScore", PyInt (credit_score r));
    ("Age", PyInt (age r));
    ("Tenure", PyInt (tenure r));
    ("Balance", PyFloat (balance r));
    ("NumOfProducts", PyInt (num_products r));
    ("HasCrCard", int_of_bool (has_credit_card r));
    ("IsActiveMember", int_of_bool (is_active r));
    ("EstimatedSalary", PyFloat (estimated_salary r));
    ("Gender", int_of_bool (String.eqb (gender r) "Male"));
    ("Geography_Germany", int_of_bool (String.eqb (geography r) "Germany"));
    ("Geography_Spain", int_of_bool (String.eqb (geography r) "Spain"));
    ("TenureAgeRatio", PyFloat tar);
    ("BalancePerProduct", PyFloat bpp);
    ("HighValueCustomer", int_of_bool (Qgt_int (balance r) 100000));
    ("ActiveSenior", int_of_bool (is_active r && (50 <=? age r)));
    ("ProductDiversity",
       int_of_bool (existsb (Z.eqb (num_products r)) [2; 3]));
    ("BalanceSalaryRatio", PyFloat bsr);
    ("CreditCategory_Good", PyInt (fst (credit_category (credit_score r))));
    ("CreditCategory_Excellent",
       PyInt (snd (credit_category (credit_score r)))) ].

(** An indicator column: 1 when the condition holds, else 0. *)
Definition indicator (z : Z) (P : Prop) : Prop :=
  (z = 1 /\ P) \/ (z = 0 /\ ~ P).

(** A features file that holds the pickle of [None], beside a working
    classifier. *)
Definition features_not_a_list : artifacts :=
  {| model_file := Pickled constant_model;
     features_file := Pickled (NotIterable "NoneType") |}.


Definition failing_classifier : artifacts :=
  {| model_file := Pickled failing_model;
     features_file := Pickled (FeatureList trained_names) |}.

Definition submit (r : CustomerRecord) : session :=
  {| inputs := r; predict_button := true |}.

Definition model_path : string := "customer_churn_rf_model.pkl".
Definition features_path : string := "model_features.pkl".

(** Lines 193-209: the axis of the gauge ends at 100, its three coloured
    bands, and the value of its threshold line. *)
Definition gauge_axis_max : Z := 100.
Definition gauge_steps : list (Z * Z * string) :=
  [(0, 40, "#c8e6c9"); (40, 70, "#fff9c4"); (70, 100, "#ffcdd2")].
Definition gauge_threshold : Z := 70.

(** The position of a tier among the bands, from the left. *)
Definition band_of_tier (t : RiskTier) : nat :=
  match t with
  | LOW => 0
  | MEDIUM => 1
  | HIGH => 2
  end.




Definition browse (r : CustomerRecord) : session :=
  {| inputs := r; predict_button := false |}.

Definition is_open (ev : event) : bool :=
  match ev with
  | io_open _ => true
  | _ => false
  end.

(** What every run shows and opens, in order, up to the input form, once
    both artifacts have loaded. *)
Definition run_prefix : list event :=
  [st_page_setup; io_open model_path; io_open features_path; st_header;
   st_sidebar_inputs].

Definition factor_lines (r : CustomerRecord) : list event :=
  match risk_factors r with
  | [] => [st_markdown "No significant risk factors identified"]
  | _ :: _ => map st_markdown (risk_factors r)
  end.



(** *** The resource cache and the host

    Streamlit runs the script again from the top on every interaction.
    [@st.cache_resource] (line 53) keeps what [load_model] returned for the
    life of the server; a call that raises, [st.stop()] included, leaves
    the cache as it was. *)
Definition resource_cache : Type := option (Model * features_obj).

Definition cached_load_model (cache : resource_cache) (fs : artifacts)
    : script (Model * features_obj) * resource_cache :=
  match cache with
  | Some loaded => (ret loaded, cache)
  | None =>
      let run := load_model fs in
      (run, match outcome run with
            | Ok loaded => Some loaded
            | Raise _ => None
            end)
  end.

(** The script, top to bottom, for a given outcome of the call of line 65. *)
Definition script_run (load : script (Model * features_obj)) (ui : session)
    : script unit :=
  emit st_page_setup ;;
  loaded <- load ;;
  let '(model, feature_names) := loaded in
  emit st_header ;;
  emit st_sidebar_inputs ;;
  (if predict_button ui
   then predict_page model feature_names (inputs ui)
   else emit st_welcome) ;;
  emit st_footer.

(** One run of the script under a given cache, and the cache it leaves. *)
Definition rerun (cache : resource_cache) (fs : artifacts) (ui : session)
    : script unit * resource_cache :=
  (script_run (fst (cached_load_model cache fs)) ui,
   snd (cached_load_model cache fs)).

(** The runs of one server, in order; the files may change between runs. *)
Fixpoint session_runs (cache : resource_cache)
    (steps : list (artifacts * session)) : list (script unit) :=
  match steps with
  | [] => []
  | (fs, ui) :: rest =>
      fst (rerun cache fs ui) :: session_runs (snd (rerun cache fs ui)) rest
  end.

(** What Streamlit's script runner does with an exception that leaves the
    script: the [StopException] of [st.stop()] ends the run silently; any
    other is shown on the page in an exception box, the run ends there and
    the server goes on serving. *)
Definition host_exception_box (run : script unit) : option exn :=
  match outcome run with
  | Raise e => if is_Exception e then Some e else None
  | Ok _ => None
  end.


(** Ints that fit in 64 bits: they convert to float, and divide, without
    [OverflowError]. *)
Definition int64 (n : Z) : Prop := - 2 ^ 63 <= n < 2 ^ 63.

(** The six rules of lines 311-322, by position, and their texts. *)
Definition rule_holds (r : CustomerRecord) (i : nat) : Prop :=
  match i with
  | 0%nat => 45 < age r
  | 1%nat => geography r = "Germany"
  | 2%nat => 3 <= num_products r
  | 3%nat => is_active r = false
  | 4%nat => (balance r == 0)%Q
  | 5%nat => tenure r < 2
  | _ => False
  end.

Definition rule_texts : list string :=
  [ "• Age above 45 (higher churn correlation)";
    "• Located in Germany (highest churn region)";
    "• Has 3+ products (potential over-complexity)";
    "• Inactive member (low engagement)";
    "• Zero balance (account not utilized)";
    "• New customer (< 2 years tenure)" ].

(** The texts kept by a list of flags, in the order of the texts. *)
Definition kept (keep : list bool) (texts : list string) : list string :=
  map snd (filter fst (combine keep texts)).

(** A record the widgets cannot produce: Age = -1. *)
Definition age_minus_one : CustomerRecord :=
  {| credit_score := 650; geography := "France"; gender := "Male";
     age := -1; tenure := 5; balance := 75000; num_products := 1;
     has_credit_card := true; is_active := true;
     estimated_salary := 60000 |}.

(** * Properties *)

(** ** Comparisons *)

Lemma float_ge_int_finite (q : Q) (n : Z) :
  float_ge_int (Finite q) n = true <-> (inject_Z n <= q)%Q.
Proof. simpl. apply Qle_bool_iff. Qed.

Lemma float_ge_int_finite_false (q : Q) (n : Z) :
  float_ge_int (Finite q) n = false <-> (q < inject_Z n)%Q.
Proof.
  simpl. split; intros H.
  - apply Qnot_le_lt. intros Hle. apply Qle_bool_iff in Hle. congruence.
  - destruct (Qle_bool (inject_Z n) q) eqn:E; [|reflexivity].
    apply Qle_bool_iff in E. exfalso. exact (Qlt_not_le _ _ H E).
Qed.

Lemma Qgt_int_iff (x : Q) (n : Z) : Qgt_int x n = true <-> (inject_Z n < x)%Q.
Proof.
  unfold Qgt_int. rewrite negb_true_iff. split; intros H.
  - apply Qnot_le_lt. intros Hle. apply Qle_bool_iff in Hle. congruence.
  - destruct (Qle_bool x (inject_Z n)) eqn:E; [|reflexivity].
    apply Qle_bool_iff in E. exfalso. exact (Qlt_not_le _ _ H E).
Qed.

Lemma Qeq_int_iff (x : Q) (n : Z) : Qeq_int x n = true <-> (x == inject_Z n)%Q.
Proof. apply Qeq_bool_iff. Qed.

(** ** Risk tiers *)

(** The two cut-offs are nested: a value that reaches 70 reaches 40. *)
Lemma float_ge_70_40 (p : pyfloat) :
  float_ge_int p 70 = true -> float_ge_int p 40 = true.
Proof.
  destruct p as [q| | |]; simpl; try congruence.
  rewrite !Qle_bool_iff. intros H.
  apply Qle_trans with (y := inject_Z 70); [|exact H].
  unfold Qle; simpl; lia.
Qed.

Lemma tier_name_inj (t t' : RiskTier) : tier_name t = tier_name t' -> t = t'.
Proof. destruct t, t'; simpl; intros H; try reflexivity; discriminate H. Qed.

(** The branching of lines 165-176, read off the two tests. *)
Lemma risk_level_cases (p : pyfloat) :
  (float_ge_int p 70 = true /\
   risk_level p = ("HIGH RISK", "🔴", "risk-high")) \/
  (float_ge_int p 70 = false /\ float_ge_int p 40 = true /\
   risk_level p = ("MEDIUM RISK", "🟡", "risk-medium")) \/
  (float_ge_int p 70 = false /\ float_ge_int p 40 = false /\
   risk_level p = ("LOW RISK", "🟢", "risk-low")).
Proof.
  unfold risk_level.
  destruct (float_ge_int p 70); [left; auto|].
  destruct (float_ge_int p 40); [right; left; auto | right; right; auto].
Qed.

(** C1.  For a churn probability [q] in [0,100] the tier is HIGH when
    [q >= 70], MEDIUM when [40 <= q < 70] and LOW when [q < 40]; 70 itself is
    HIGH and 40 itself is MEDIUM; and exactly one tier is displayed. *)
Theorem risk_tier_partition (q : Q) (Hq : (0 <= q /\ q <= 100)%Q) :
  ((70 <= q)%Q -> risk_level (Finite q) = ("HIGH RISK", "🔴", "risk-high")) /\
  ((40 <= q /\ q < 70)%Q ->
     risk_level (Finite q) = ("MEDIUM RISK", "🟡", "risk-medium")) /\
  ((q < 40)%Q -> risk_level (Finite q) = ("LOW RISK", "🟢", "risk-low")) /\
  displayed_level (Finite 70) = tier_name HIGH /\
  displayed_level (Finite 40) = tier_name MEDIUM /\
  (exists! t : RiskTier, displayed_level (Finite q) = tier_name t).
Proof.
  repeat split.
  - intros H. apply (float_ge_int_finite q 70) in H.
    unfold risk_level. now rewrite H.
  - intros [H40 H70]. apply (float_ge_int_finite q 40) in H40.
    apply (float_ge_int_finite_false q 70) in H70.
    unfold risk_level. now rewrite H70, H40.
  - intros H. assert (H70 : (q < inject_Z 70)%Q).
    { apply Qlt_trans with (y := inject_Z 40); [exact H|]. reflexivity. }
    apply (float_ge_int_finite_false q 40) in H.
    apply (float_ge_int_finite_false q 70) in H70.
    unfold risk_level. now rewrite H70, H.
  - unfold displayed_level.
    destruct (risk_level_cases (Finite q)) as [[_ E]|[[_ [_ E]]|[_ [_ E]]]];
      rewrite E; simpl.
    + exists HIGH. split; [reflexivity|]. intros t' Ht. now apply tier_name_inj.
    + exists MEDIUM. split; [reflexivity|]. intros t' Ht. now apply tier_name_inj.
    + exists LOW. split; [reflexivity|]. intros t' Ht. now apply tier_name_inj.
Qed.

Lemma risk_tier_partition_witness :
  (0 <= 85 /\ 85 <= 100)%Q /\
  risk_level (Finite 85) = ("HIGH RISK", "🔴", "risk-high").
Proof.
  assert (H : (0 <= 85 /\ 85 <= 100)%Q) by (split; unfold Qle; simpl; lia).
  split; [exact H|].
  apply (proj1 (risk_tier_partition 85 H)). unfold Qle; simpl; lia.
Defined.

(** C10.  Whatever the classifier returned, the recommendation block that
    is shown is the one of the tier that is displayed: the two branchings
    test the same value against the same cut-offs. *)
Theorem recommendation_agrees_with_tier (churn_prob : pyfloat) :
  exists t : RiskTier,
    displayed_level churn_prob = tier_name t /\
    recommendation churn_prob = (text_variant t, Ok tt).
Proof.
  unfold displayed_level, recommendation.
  destruct (risk_level_cases churn_prob) as [[H E]|[[H [H' E]]|[H [H' E]]]];
    rewrite E, H; try rewrite H'.
  - exists HIGH. split; reflexivity.
  - exists MEDIUM. split; reflexivity.
  - exists LOW. split; reflexivity.
Qed.

(** ** The feature transform *)

Lemma truediv_int_ok (a b : Z) :
  b <> 0 -> truediv_int a b = Ok (inject_Z a / inject_Z b)%Q.
Proof.
  intros Hb. unfold truediv_int.
  destruct (Z.eqb_spec b 0) as [E|_]; [contradiction | reflexivity].
Qed.

Lemma truediv_ok (a b : Q) : ~ (b == 0)%Q -> truediv a b = Ok (a / b)%Q.
Proof.
  intros Hb. unfold truediv.
  destruct (Qeq_bool b 0) eqn:E; [|reflexivity].
  apply Qeq_bool_iff in E. contradiction.
Qed.

(** When no divisor is zero the transform returns the table. *)
Lemma input_data_ok (r : CustomerRecord) :
  tenure_age_den r <> 0 ->
  ~ (balance_product_den r == 0)%Q ->
  ~ (balance_salary_den r == 0)%Q ->
  input_data r =
    Ok (feature_table r
          (inject_Z (tenure r) / inject_Z (tenure_age_den r))
          (balance r / balance_product_den r)
          (balance r / balance_salary_den r)).
Proof.
  intros H1 H2 H3. unfold input_data.
  rewrite (truediv_int_ok _ _ H1), (truediv_ok _ _ H2), (truediv_ok _ _ H3).
  simpl rbind. unfold feature_table.
  destruct (credit_category (credit_score r)) as [good excellent].
  reflexivity.
Qed.

(** Whenever the transform returns, it returns the table. *)
Lemma input_data_inv (r : CustomerRecord) (d : dict) :
  input_data r = Ok d -> exists tar bpp bsr, d = feature_table r tar bpp bsr.
Proof.
  unfold input_data.
  destruct (truediv_int (tenure r) (tenure_age_den r)) as [tar|e];
    [|discriminate].
  destruct (truediv (balance r) (balance_product_den r)) as [bpp|e];
    [|discriminate].
  destruct (truediv (balance r) (balance_salary_den r)) as [bsr|e];
    [|discriminate].
  simpl rbind. unfold feature_table.
  destruct (credit_category (credit_score r)) as [good excellent].
  intros H. injection H as <-. exists tar, bpp, bsr. reflexivity.
Qed.

Lemma products_range (n : Z) : In n [1; 2; 3; 4] -> 1 <= n <= 4.
Proof. simpl. intros [H|[H|[H|[H|[]]]]]; subst n; lia. Qed.

Lemma tenure_age_den_bound (r : CustomerRecord) :
  18 <= age r <= 100 -> 19 <= tenure_age_den r.
Proof. unfold tenure_age_den. lia. Qed.

Lemma balance_product_den_bound (r : CustomerRecord) :
  In (num_products r) [1; 2; 3; 4] -> (1.01 <= balance_product_den r)%Q.
Proof.
  intros H. apply products_range in H. unfold balance_product_den.
  assert (Hq : (inject_Z 1 <= inject_Z (num_products r))%Q)
    by (rewrite <- Zle_Qle; lia).
  change (inject_Z 1) with 1%Q in Hq. lra.
Qed.

Lemma balance_salary_den_bound (r : CustomerRecord) :
  (0 <= estimated_salary r)%Q -> (1 <= balance_salary_den r)%Q.
Proof. intros H. unfold balance_salary_den. lra. Qed.

(** C5.  For a credit score in [300,850] exactly one of three regimes is
    active: below 600 both flags are 0, from 600 to below 700 Good is 1 and
    Excellent is 0, from 700 on Good is 0 and Excellent is 1; both flags are
    never 1 together.  These are the values the transform stores. *)
Theorem credit_category_regimes (r : CustomerRecord)
    (Hscore : 300 <= credit_score r <= 850) :
  let score := credit_score r in
  ((score < 600 /\ credit_category score = (0, 0)) \/
   (600 <= score < 700 /\ credit_category score = (1, 0)) \/
   (700 <= score /\ credit_category score = (0, 1))) /\
  credit_category score <> (1, 1) /\
  forall d, input_data r = Ok d ->
    get "CreditCategory_Good" d = Some (PyInt (fst (credit_category score))) /\
    get "CreditCategory_Excellent" d
      = Some (PyInt (snd (credit_category score))).
Proof.
  intros score.
  split; [|split]; [| |intros d Hd; apply input_data_inv in Hd;
    destruct Hd as (tar & bpp & bsr & ->); split; reflexivity];
    unfold credit_category.
  - destruct (Z.ltb_spec score 600) as [H6|H6];
      [|destruct (Z.ltb_spec score 700) as [H7|H7]].
    + left; split; [lia|reflexivity].
    + right; left; split; [lia|reflexivity].
    + right; right; split; [lia|reflexivity].
  - destruct (score <? 600); [discriminate|].
    destruct (score <? 700); discriminate.
Qed.

Lemma credit_category_regimes_witness :
  300 <= credit_score scenario_A <= 850 /\
  credit_category (credit_score scenario_A) = (1, 0).
Proof.
  assert (H : 300 <= credit_score scenario_A <= 850) by (simpl; lia).
  split; [exact H|].
  destruct (proj1 (credit_category_regimes scenario_A H)) as [[L _]|[[_ E]|[L _]]].
  - simpl in L. lia.
  - exact E.
  - simpl in L. lia.
Defined.

(** C7.  With the age, the number of products and the salary in the ranges
    of the widgets, the three denominators are at least 19, 1.01 and 1, so
    none of the three divisions raises [ZeroDivisionError]: each returns the
    quotient of its numerator by its denominator, and the transform returns
    its table.  With the tenure and the balance in their ranges too, the
    three ratios lie in [0,1], [0,300000] and [0,300000]. *)
Theorem ratios_well_defined (r : CustomerRecord)
    (Hage : 18 <= age r <= 100)
    (Hproducts : In (num_products r) [1; 2; 3; 4])
    (Hsalary : (0 <= estimated_salary r /\ estimated_salary r <= 200000)%Q) :
  19 <= tenure_age_den r /\
  (1.01 <= balance_product_den r)%Q /\
  (1 <= balance_salary_den r)%Q /\
  exists tar bpp bsr : Q,
    truediv_int (tenure r) (tenure_age_den r) = Ok tar /\
    (tar * inject_Z (tenure_age_den r) == inject_Z (tenure r))%Q /\
    truediv (balance r) (balance_product_den r) = Ok bpp /\
    (bpp * balance_product_den r == balance r)%Q /\
    truediv (balance r) (balance_salary_den r) = Ok bsr /\
    (bsr * balance_salary_den r == balance r)%Q /\
    input_data r = Ok (feature_table r tar bpp bsr) /\
    (0 <= tenure r <= 10 -> (0 <= balance r /\ balance r <= 300000)%Q ->
       (0 <= tar /\ tar <= 1)%Q /\
       (0 <= bpp /\ bpp <= 300000)%Q /\
       (0 <= bsr /\ bsr <= 300000)%Q).
Proof.
  pose proof (tenure_age_den_bound r Hage) as H1.
  pose proof (balance_product_den_bound r Hproducts) as H2.
  pose proof (balance_salary_den_bound r (proj1 Hsalary)) as H3.
  assert (N1 : tenure_age_den r <> 0) by lia.
  assert (N2 : ~ (balance_product_den r == 0)%Q) by (intros E; rewrite E in H2; lra).
  assert (N3 : ~ (balance_salary_den r == 0)%Q) by (intros E; rewrite E in H3; lra).
  assert (N1' : ~ (inject_Z (tenure_age_den r) == 0)%Q).
  { intros E. apply N1. unfold Qeq in E. simpl in E. lia. }
  repeat split; try assumption.
  exists (inject_Z (tenure r) / inject_Z (tenure_age_den r))%Q,
         (balance r / balance_product_den r)%Q,
         (balance r / balance_salary_den r)%Q.
  repeat match goal with |- _ /\ _ => split end.
  - now apply truediv_int_ok.
  - now field.
  - now apply truediv_ok.
  - now field.
  - now apply truediv_ok.
  - now field.
  - now apply input_data_ok.
  - intros Htenure [Hb0 Hb1].
    assert (P1 : (0 < inject_Z (tenure_age_den r))%Q)
      by (change 0%Q with (inject_Z 0); rewrite <- Zlt_Qlt; lia).
    assert (T0 : (inject_Z 0 <= inject_Z (tenure r))%Q)
      by (rewrite <- Zle_Qle; lia).
    assert (T1 : (inject_Z (tenure r) <= inject_Z (tenure_age_den r))%Q)
      by (rewrite <- Zle_Qle; lia).
    change (inject_Z 0) with 0%Q in T0.
    repeat match goal with |- _ /\ _ => split end.
    + apply Qle_shift_div_l; [exact P1|]. lra.
    + apply Qle_shift_div_r; [exact P1|]. lra.
    + apply Qle_shift_div_l; lra.
    + apply Qle_shift_div_r; lra.
    + apply Qle_shift_div_l; lra.
    + apply Qle_shift_div_r; lra.
Qed.

Lemma ratios_well_defined_witness :
  (18 <= age scenario_A <= 100 /\
   In (num_products scenario_A) [1; 2; 3; 4] /\
   (0 <= estimated_salary scenario_A /\ estimated_salary scenario_A <= 200000)%Q) /\
  19 <= tenure_age_den scenario_A.
Proof.
  assert (Ha : 18 <= age scenario_A <= 100) by (simpl; lia).
  assert (Hp : In (num_products scenario_A) [1; 2; 3; 4]) by (simpl; auto).
  assert (Hs : (0 <= estimated_salary scenario_A /\
                estimated_salary scenario_A <= 200000)%Q)
    by (split; unfold Qle; simpl; lia).
  split; [auto|].
  exact (proj1 (ratios_well_defined scenario_A Ha Hp Hs)).
Defined.

Lemma indicator_of_bool (b : bool) (P : Prop) :
  (b = true <-> P) -> indicator (if b then 1 else 0) P.
Proof.
  intros H. destruct b.
  - left. split; [reflexivity | now apply H].
  - right. split; [reflexivity|]. intros HP. apply H in HP. discriminate.
Qed.

Lemma valid_record_divisors (r : CustomerRecord) :
  valid_record r ->
  tenure_age_den r <> 0 /\
  ~ (balance_product_den r == 0)%Q /\
  ~ (balance_salary_den r == 0)%Q.
Proof.
  intros (_ & _ & _ & Hage & _ & _ & Hproducts & Hsalary & _).
  pose proof (tenure_age_den_bound r Hage) as H1.
  pose proof (balance_product_den_bound r Hproducts) as H2.
  pose proof (balance_salary_den_bound r Hsalary) as H3.
  repeat split.
  - lia.
  - intros E. rewrite E in H2. lra.
  - intros E. rewrite E in H3. lra.
Qed.

(** C2.  For every record within the ranges of the widgets the transform
    stores TenureAgeRatio = Tenure/(Age+1), BalancePerProduct =
    Balance/(NumOfProducts+0.01), HighValueCustomer = 1 iff Balance > 100000,
    ActiveSenior = 1 iff IsActiveMember and Age >= 50, ProductDiversity = 1
    iff NumOfProducts is 2 or 3, and BalanceSalaryRatio =
    Balance/(EstimatedSalary+1), the flags being 0 otherwise; for the record
    of Scenario A these are 5/36, 75000/1.01, 0, 0, 0 and 75000/60001, with
    CreditCategory_Good = 1 and CreditCategory_Excellent = 0. *)
Theorem engineered_features (r : CustomerRecord) (Hr : valid_record r) :
  (exists (d : dict) (high senior diverse : Z),
     input_data r = Ok d /\
     get "TenureAgeRatio" d
       = Some (PyFloat (inject_Z (tenure r) / inject_Z (age r + 1))) /\
     get "BalancePerProduct" d
       = Some (PyFloat (balance r / (inject_Z (num_products r) + 0.01))) /\
     get "HighValueCustomer" d = Some (PyInt high) /\
     indicator high (100000 < balance r)%Q /\
     get "ActiveSenior" d = Some (PyInt senior) /\
     indicator senior (is_active r = true /\ 50 <= age r) /\
     get "ProductDiversity" d = Some (PyInt diverse) /\
     indicator diverse (num_products r = 2 \/ num_products r = 3) /\
     get "BalanceSalaryRatio" d
       = Some (PyFloat (balance r / (estimated_salary r + 1)))) /\
  (exists d : dict,
     input_data scenario_A = Ok d /\
     get "TenureAgeRatio" d = Some (PyFloat (5 / 36)) /\
     get "BalancePerProduct" d = Some (PyFloat (75000 / 1.01)) /\
     get "HighValueCustomer" d = Some (PyInt 0) /\
     get "ActiveSenior" d = Some (PyInt 0) /\
     get "ProductDiversity" d = Some (PyInt 0) /\
     get "BalanceSalaryRatio" d = Some (PyFloat (75000 / 60001)) /\
     get "CreditCategory_Good" d = Some (PyInt 1) /\
     get "CreditCategory_Excellent" d = Some (PyInt 0)).
Proof.
  split.
  - destruct (valid_record_divisors r Hr) as (N1 & N2 & N3).
    eexists.
    exists (if Qgt_int (balance r) 100000 then 1 else 0),
           (if is_active r && (50 <=? age r) then 1 else 0),
           (if existsb (Z.eqb (num_products r)) [2; 3] then 1 else 0).
    split; [exact (input_data_ok r N1 N2 N3)|].
    repeat match goal with
           | |- get _ _ = _ /\ _ => split; [reflexivity|]
           | |- get _ _ = _ => reflexivity
           | |- indicator _ _ /\ _ => split
           end.
    + apply indicator_of_bool. apply (Qgt_int_iff (balance r) 100000).
    + apply indicator_of_bool. rewrite andb_true_iff, Z.leb_le. reflexivity.
    + apply indicator_of_bool. simpl existsb.
      rewrite !orb_true_iff, !Z.eqb_eq. intuition discriminate.
  - eexists. split; [vm_compute; reflexivity|].
    repeat split; vm_compute; reflexivity.
Qed.

Lemma scenario_A_valid : valid_record scenario_A.
Proof.
  unfold valid_record, scenario_A; simpl.
  repeat split; try lia; auto; unfold Qle; simpl; lia.
Defined.

Lemma engineered_features_witness :
  valid_record scenario_A /\
  exists d : dict,
    input_data scenario_A = Ok d /\
    get "TenureAgeRatio" d = Some (PyFloat (5 # 36)).
Proof.
  split; [exact scenario_A_valid|].
  destruct (proj1 (engineered_features scenario_A scenario_A_valid))
    as (d & _ & _ & _ & Hd & Htar & _).
  exists d. split; [exact Hd|]. rewrite Htar. vm_compute. reflexivity.
Defined.

(** ** Risk factors *)

Lemma markdown_each_trace (factors : list string) :
  markdown_each factors = (map st_markdown factors, Ok tt).
Proof.
  induction factors as [|f rest IH]; [reflexivity|].
  simpl. unfold bind, emit. rewrite IH. reflexivity.
Qed.

(** C6.  The list of risk factors is the list of the six rules that hold
    (age > 45, Germany, products >= 3, not active, balance == 0, tenure < 2),
    in that order: each of the six texts is kept exactly when its rule
    holds of the record; it is shown one line per factor, and when no rule
    holds the line "No significant risk factors identified" is shown
    instead; for the record of Scenario B with a balance that is not zero
    it is the four factors age > 45, Germany, products >= 3 and inactive,
    and with a zero balance the zero-balance factor comes fifth. *)
Theorem risk_factors_rules (r : CustomerRecord) :
  (exists keep : list bool,
     length keep = 6%nat /\
     (forall i, (i < 6)%nat ->
        (nth i keep false = true <-> rule_holds r i)) /\
     risk_factors r = kept keep rule_texts) /\
  risk_factors r = rules_that_hold r /\
  show_risk_factors (risk_factors r)
    = (match rules_that_hold r with
       | [] => [st_markdown "No significant risk factors identified"]
       | _ :: _ => map st_markdown (rules_that_hold r)
       end, Ok tt) /\
  ((forall i, (i < 6)%nat -> ~ rule_holds r i) ->
   show_risk_factors (risk_factors r)
     = ([st_markdown "No significant risk factors identified"], Ok tt)) /\
  (age r = 55 -> geography r = "Germany" -> num_products r = 4 ->
   is_active r = false -> tenure r = 10 -> ~ (balance r == 0)%Q ->
    risk_factors r
      = [ "• Age above 45 (higher churn correlation)";
          "• Located in Germany (highest churn region)";
          "• Has 3+ products (potential over-complexity)";
          "• Inactive member (low engagement)" ]) /\
  (age r = 55 -> geography r = "Germany" -> num_products r = 4 ->
   is_active r = false -> tenure r = 10 -> (balance r == 0)%Q ->
    risk_factors r
      = [ "• Age above 45 (higher churn correlation)";
          "• Located in Germany (highest churn region)";
          "• Has 3+ products (potential over-complexity)";
          "• Inactive member (low engagement)";
          "• Zero balance (account not utilized)" ]).
Proof.
  assert (E : risk_factors r = rules_that_hold r).
  { unfold risk_factors, rules_that_hold, risk_rules, append_if. simpl.
    destruct (45 <? age r), (String.eqb (geography r) "Germany"),
      (3 <=? num_products r), (negb (is_active r)), (Qeq_int (balance r) 0),
      (tenure r <? 2); reflexivity. }
  split; [|split; [exact E|split; [|split; [|split]]]].
  - exists [45 <? age r; String.eqb (geography r) "Germany";
            3 <=? num_products r; negb (is_active r);
            Qeq_int (balance r) 0; tenure r <? 2].
    split; [reflexivity|]. split.
    + intros i Hi.
      destruct i as [|[|[|[|[|[|i]]]]]]; simpl; [| | | | | |lia].
      * apply Z.ltb_lt.
      * apply String.eqb_eq.
      * apply Z.leb_le.
      * apply negb_true_iff.
      * apply (Qeq_int_iff (balance r) 0).
      * apply Z.ltb_lt.
    + unfold risk_factors, kept, rule_texts, append_if.
      destruct (45 <? age r), (String.eqb (geography r) "Germany"),
        (3 <=? num_products r), (negb (is_active r)),
        (Qeq_int (balance r) 0), (tenure r <? 2); reflexivity.
  - rewrite E. unfold show_risk_factors.
    destruct (rules_that_hold r) as [|f rest]; [reflexivity|].
    apply markdown_each_trace.
  - intros Hnone.
    assert (H0 : (45 <? age r) = false).
    { apply Z.ltb_ge. pose proof (Hnone 0%nat) as H. simpl in H. lia. }
    assert (H1 : String.eqb (geography r) "Germany" = false).
    { apply String.eqb_neq. apply (Hnone 1%nat). lia. }
    assert (H2 : (3 <=? num_products r) = false).
    { apply Z.leb_gt. pose proof (Hnone 2%nat) as H. simpl in H. lia. }
    assert (H3 : negb (is_active r) = false).
    { pose proof (Hnone 3%nat) as H. simpl in H.
      destruct (is_active r); [reflexivity|]. exfalso. apply H; [lia|reflexivity]. }
    assert (H4 : Qeq_int (balance r) 0 = false).
    { destruct (Qeq_int (balance r) 0) eqn:B; [|reflexivity].
      apply (Qeq_int_iff (balance r) 0) in B. exfalso.
      apply (Hnone 4%nat); [lia|exact B]. }
    assert (H5 : (tenure r <? 2) = false).
    { apply Z.ltb_ge. pose proof (Hnone 5%nat) as H. simpl in H. lia. }
    unfold risk_factors, append_if. rewrite H0, H1, H2, H3, H4, H5.
    reflexivity.
  - intros Ha Hg Hp Hi Ht Hb. unfold risk_factors, append_if.
    rewrite Ha, Hg, Hp, Hi, Ht. simpl.
    destruct (Qeq_int (balance r) 0) eqn:Eb; [|reflexivity].
    apply Qeq_int_iff in Eb. contradiction.
  - intros Ha Hg Hp Hi Ht Hb. unfold risk_factors, append_if.
    rewrite Ha, Hg, Hp, Hi, Ht. simpl.
    rewrite (proj2 (Qeq_int_iff (balance r) 0) Hb). reflexivity.
Qed.

Lemma risk_factors_rules_witness :
  ~ (50000 == 0)%Q /\
  risk_factors (scenario_B 50000)
    = [ "• Age above 45 (higher churn correlation)";
        "• Located in Germany (highest churn region)";
        "• Has 3+ products (potential over-complexity)";
        "• Inactive member (low engagement)" ].
Proof.
  assert (Hb : ~ (50000 == 0)%Q) by (unfold Qeq; simpl; lia).
  split; [exact Hb|].
  exact (proj1 (proj2 (proj2 (proj2 (proj2
           (risk_factors_rules (scenario_B 50000))))))
           eq_refl eq_refl eq_refl eq_refl eq_refl Hb).
Defined.

(** ** Zero-fill and column selection *)

Lemma get_setitem_same (k : string) (v : pyval) (d : dict) :
  get k (setitem k v d) = Some v.
Proof.
  induction d as [|[k' v'] d IH]; simpl.
  - now rewrite String.eqb_refl.
  - destruct (String.eqb k k') eqn:E; simpl.
    + now rewrite String.eqb_refl.
    + rewrite E. exact IH.
Qed.

Lemma get_setitem_other (k k' : string) (v : pyval) (d : dict) :
  k <> k' -> get k (setitem k' v d) = get k d.
Proof.
  intros Hne. induction d as [|[k0 v0] d IH]; simpl.
  - destruct (String.eqb_spec k k'); [contradiction|reflexivity].
  - destruct (String.eqb_spec k' k0) as [->|Hk0]; simpl.
    + destruct (String.eqb_spec k k0); [contradiction|reflexivity].
    + destruct (String.eqb_spec k k0); [reflexivity|exact IH].
Qed.

Lemma contains_false (k : string) (d : dict) :
  contains k d = false <-> get k d = None.
Proof. unfold contains. destruct (get k d); split; congruence. Qed.

(** A column that exists keeps its value through the zero-fill. *)
Lemma zero_fill_keeps (names : list string) (d : dict) (k : string) (v : pyval) :
  get k d = Some v -> get k (zero_fill names d) = Some v.
Proof.
  revert d. induction names as [|f rest IH]; intros d Hk; simpl; [exact Hk|].
  apply IH. destruct (contains f d) eqn:Ec; simpl; [exact Hk|].
  rewrite get_setitem_other; [exact Hk|].
  intros ->. apply contains_false in Ec. congruence.
Qed.

(** A trained name that is no column becomes a column holding 0. *)
Lemma zero_fill_fills (names : list string) (d : dict) (k : string) :
  In k names -> get k d = None -> get k (zero_fill names d) = Some (PyInt 0).
Proof.
  revert d. induction names as [|f rest IH]; intros d Hin Hk; [destruct Hin|].
  simpl. destruct (string_dec f k) as [->|Hne].
  - apply zero_fill_keeps.
    rewrite (proj2 (contains_false k d) Hk). simpl. apply get_setitem_same.
  - destruct Hin as [Hf|Hin]; [contradiction|].
    apply IH; [exact Hin|].
    destruct (contains f d); simpl; [exact Hk|].
    rewrite get_setitem_other; [exact Hk|congruence].
Qed.

(** The zero-fill touches no name outside the trained list. *)
Lemma zero_fill_outside (names : list string) (d : dict) (k : string) :
  ~ In k names -> get k (zero_fill names d) = get k d.
Proof.
  revert d. induction names as [|f rest IH]; intros d Hout; [reflexivity|].
  simpl. rewrite IH by (intros H; apply Hout; now right).
  destruct (contains f d); simpl; [reflexivity|].
  apply get_setitem_other. intros ->. apply Hout. now left.
Qed.

Lemma select_present (names : list string) (df : dict) :
  (forall n, In n names -> get n df <> None) ->
  select names df = Ok (aligned names df).
Proof.
  induction names as [|n rest IH]; intros Hall; [reflexivity|].
  simpl. destruct (get n df) as [v|] eqn:E.
  - rewrite IH by (intros m Hm; apply Hall; now right). reflexivity.
  - exfalso. apply (Hall n); [now left|exact E].
Qed.

Lemma aligned_ext (names : list string) (d d' : dict) :
  (forall n, In n names -> get n d = get n d') ->
  aligned names d = aligned names d'.
Proof.
  intros H. unfold aligned. apply map_ext_in. intros n Hn.
  now rewrite (H n Hn).
Qed.

(** After the zero-fill the selection cannot fail, and it yields the
    aligned table. *)
Lemma select_zero_fill (names : list string) (d : dict) :
  select names (zero_fill names d) = Ok (aligned names d).
Proof.
  rewrite select_present.
  - f_equal. unfold aligned. apply map_ext_in. intros n Hn.
    destruct (get n d) as [v|] eqn:E.
    + now rewrite (zero_fill_keeps names d n v E).
    + now rewrite (zero_fill_fills names d n Hn E).
  - intros n Hn. destruct (get n d) as [v|] eqn:E.
    + now rewrite (zero_fill_keeps names d n v E).
    + now rewrite (zero_fill_fills names d n Hn E).
Qed.

Lemma columns_aligned (names : list string) (d : dict) :
  columns (aligned names d) = names.
Proof.
  unfold columns, aligned. rewrite map_map. simpl. apply map_id.
Qed.

Lemma get_aligned (names : list string) (d : dict) (k : string) :
  In k names ->
  get k (aligned names d)
    = Some (match get k d with Some v => v | None => PyInt 0 end).
Proof.
  induction names as [|n rest IH]; intros Hin; [destruct Hin|].
  simpl. destruct (String.eqb_spec k n) as [->|Hne]; [reflexivity|].
  destruct Hin as [->|Hin]; [contradiction|]. now apply IH.
Qed.

Lemma get_aligned_outside (names : list string) (d : dict) (k : string) :
  ~ In k names -> get k (aligned names d) = None.
Proof.
  induction names as [|n rest IH]; intros Hout; [reflexivity|].
  simpl. destruct (String.eqb_spec k n) as [->|Hne].
  - exfalso. apply Hout. now left.
  - apply IH. intros H. apply Hout. now right.
Qed.

Lemma feature_vector_aligned (names : list string) (r : CustomerRecord)
    (d : dict) :
  input_data r = Ok d ->
  feature_vector (FeatureList names) r = Ok (aligned names d).
Proof.
  intros Hd. unfold feature_vector. rewrite Hd. simpl.
  apply select_zero_fill.
Qed.

Lemma bind_lift_ok {A B : Type} (a : A) (k : A -> script B) :
  bind (lift (Ok a)) k = k a.
Proof. unfold bind, lift. destruct (k a) as [t r]. reflexivity. Qed.

Lemma bind_lift_raise {A B : Type} (e : exn) (k : A -> script B) :
  bind (lift (Raise e)) k = ([], Raise e).
Proof. reflexivity. Qed.

(** C4.  Whatever the trained list of names, the frame is built without
    raising; its columns are the trained names in the order of that list;
    a trained name the transform did not produce holds 0, the others hold
    what the transform computed; and this frame is the one the guarded
    inference block receives. *)
Theorem missing_features_zero_filled (r : CustomerRecord)
    (names : list string) (d : dict) (Hd : input_data r = Ok d) :
  exists input_df : dict,
    feature_vector (FeatureList names) r = Ok input_df /\
    columns input_df = names /\
    (forall n, In n names -> contains n d = false ->
       get n input_df = Some (PyInt 0)) /\
    (forall n v, In n names -> get n d = Some v -> get n input_df = Some v) /\
    (forall model,
       predict_page model (FeatureList names) r
         = try_except (predict_and_render model input_df r) is_Exception
             prediction_error).
Proof.
  exists (aligned names d). split; [now apply feature_vector_aligned|].
  split; [apply columns_aligned|]. split; [|split].
  - intros n Hn Hc. apply contains_false in Hc.
    rewrite get_aligned by exact Hn. now rewrite Hc.
  - intros n v Hn Hv. rewrite get_aligned by exact Hn. now rewrite Hv.
  - intros model. unfold predict_page.
    rewrite (feature_vector_aligned names r d Hd).
    exact (bind_lift_ok (aligned names d)
             (fun df => try_except (predict_and_render model df r)
                          is_Exception prediction_error)).
Qed.

Lemma missing_features_zero_filled_witness :
  exists d : dict,
    input_data scenario_A = Ok d /\
    feature_vector (FeatureList ["Age"; "Complain"; "CreditScore"]) scenario_A
      = Ok [("Age", PyInt 35); ("Complain", PyInt 0); ("CreditScore", PyInt 650)].
Proof.
  destruct (valid_record_divisors scenario_A scenario_A_valid) as (N1 & N2 & N3).
  pose proof (input_data_ok scenario_A N1 N2 N3) as Hd.
  eexists. split; [exact Hd|].
  destruct (missing_features_zero_filled scenario_A
              ["Age"; "Complain"; "CreditScore"] _ Hd)
    as (df & Hdf & Hcols & Hzero & Hkeep & _).
  rewrite Hdf. f_equal.
  destruct df as [|[k1 v1] [|[k2 v2] [|[k3 v3] [|]]]]; try discriminate Hcols.
  injection Hcols as -> -> ->.
  pose proof (Hkeep "Age" (PyInt 35) (or_introl eq_refl) eq_refl) as H1.
  pose proof (Hzero "Complain" (or_intror (or_introl eq_refl)) eq_refl) as H2.
  pose proof (Hkeep "CreditScore" (PyInt 650)
                (or_intror (or_intror (or_introl eq_refl))) eq_refl) as H3.
  simpl in H1, H2, H3.
  injection H1 as ->. injection H2 as ->. injection H3 as ->. reflexivity.
Defined.

(** C9.  The frame handed to inference has exactly the trained names as
    its columns: a feature the transform produced under a name that is not
    trained is absent from it, no exception is raised for it, and the
    trained columns hold what they would hold without it. *)
Theorem untrained_features_dropped (r : CustomerRecord)
    (names : list string) (d : dict) (Hd : input_data r = Ok d) :
  exists input_df : dict,
    feature_vector (FeatureList names) r = Ok input_df /\
    columns input_df = names /\
    (forall k, contains k input_df = true <-> In k names) /\
    (forall k, contains k d = true -> ~ In k names ->
       contains k input_df = false) /\
    (forall d' : dict,
       (forall n, In n names -> get n d' = get n d) ->
       select names (zero_fill names d') = Ok input_df).
Proof.
  exists (aligned names d). split; [now apply feature_vector_aligned|].
  split; [apply columns_aligned|]. split; [|split].
  - intros k. unfold contains. split.
    + intros H. destruct (in_dec string_dec k names) as [Hin|Hout];
        [exact Hin|].
      rewrite get_aligned_outside in H by exact Hout. discriminate.
    + intros Hin. now rewrite get_aligned.
  - intros k _ Hout. unfold contains.
    now rewrite get_aligned_outside.
  - intros d' Hagree. rewrite select_zero_fill. f_equal.
    now apply aligned_ext.
Qed.

Lemma untrained_features_dropped_witness :
  exists d : dict,
    input_data scenario_A = Ok d /\
    contains "BalanceSalaryRatio" d = true /\
    exists input_df : dict,
      feature_vector (FeatureList ["Age"; "Balance"]) scenario_A = Ok input_df /\
      columns input_df = ["Age"; "Balance"] /\
      contains "BalanceSalaryRatio" input_df = false.
Proof.
  destruct (valid_record_divisors scenario_A scenario_A_valid) as (N1 & N2 & N3).
  pose proof (input_data_ok scenario_A N1 N2 N3) as Hd.
  eexists. split; [exact Hd|]. split; [reflexivity|].
  destruct (untrained_features_dropped scenario_A ["Age"; "Balance"] _ Hd)
    as (df & Hdf & Hcols & _ & Hdrop & _).
  exists df. split; [exact Hdf|]. split; [exact Hcols|].
  apply Hdrop; [reflexivity|].
  simpl. intros [H|[H|[]]]; discriminate H.
Defined.

(** ** Runs of the script *)

Lemma load_model_ok (fs : artifacts) (m : Model) (f : features_obj) :
  model_file fs = Pickled m -> features_file fs = Pickled f ->
  load_model fs = ([io_open model_path; io_open features_path], Ok (m, f)).
Proof. intros Hm Hf. unfold load_model. rewrite Hm, Hf. reflexivity. Qed.


(** ** Start-up *)


(** * Further properties of the script *)

(** ** The frame under the zero-fill *)

Lemma get_None_iff (k : string) (d : dict) :
  get k d = None <-> ~ In k (columns d).
Proof.
  induction d as [|[k' v] d IH]; simpl.
  - split; [intros _ H; exact H | reflexivity].
  - destruct (String.eqb_spec k k') as [->|Hne].
    + split; [discriminate | intros H; exfalso; apply H; now left].
    + rewrite IH. split.
      * intros H [E|Hin]; [congruence | now apply H].
      * intros H Hin. apply H. now right.
Qed.

Lemma get_app (k : string) (d e : dict) :
  get k (d ++ e)%list
    = match get k d with Some v => Some v | None => get k e end.
Proof.
  induction d as [|[k' v] d IH]; simpl; [reflexivity|].
  destruct (String.eqb k k'); [reflexivity | exact IH].
Qed.

(** Assigning to a key that is absent appends it. *)
Lemma setitem_absent (k : string) (v : pyval) (d : dict) :
  get k d = None -> setitem k v d = (d ++ [(k, v)])%list.
Proof.
  induction d as [|[k' v'] d IH]; simpl; [reflexivity|].
  destruct (String.eqb k k'); [discriminate|].
  intros H. now rewrite IH.
Qed.

(** X1.  The zero-fill only appends: the frame it returns is the frame it
    was given followed by new columns; each new column holds 0, is named by
    a trained name that was no column before, and appears once; and every
    trained name that was no column is among them. *)
Theorem zero_fill_appends (names : list string) (d : dict) :
  exists extra : dict,
    zero_fill names d = (d ++ extra)%list /\
    Forall (fun kv => snd kv = PyInt 0 /\ In (fst kv) names /\
                      contains (fst kv) d = false) extra /\
    NoDup (columns extra) /\
    (forall n, In n names -> contains n d = false -> In n (columns extra)).
Proof.
  revert d. induction names as [|f rest IH]; intros d.
  - exists []. simpl. rewrite app_nil_r.
    repeat split; [constructor | constructor | intros n H; destruct H].
  - simpl. destruct (contains f d) eqn:Ec; simpl.
    + destruct (IH d) as (extra & E & Hall & Hnd & Hcov).
      exists extra. split; [exact E|]. split; [|split; [exact Hnd|]].
      * eapply Forall_impl; [|exact Hall]. intros kv (H0 & Hin & Hc).
        repeat split; [exact H0 | now right | exact Hc].
      * intros n [<-|Hin] Hc; [congruence | now apply Hcov].
    + pose proof (proj1 (contains_false f d) Ec) as Hf.
      rewrite (setitem_absent f (PyInt 0) d Hf).
      destruct (IH (d ++ [(f, PyInt 0)])%list) as (extra & E & Hall & Hnd & Hcov).
      assert (Hget : forall k, contains k (d ++ [(f, PyInt 0)])%list = false ->
                               contains k d = false /\ k <> f).
      { intros k Hk. apply contains_false in Hk. rewrite get_app in Hk.
        destruct (get k d) eqn:Ek; [discriminate|]. simpl in Hk.
        split; [now apply contains_false|].
        intros ->. rewrite String.eqb_refl in Hk. discriminate. }
      exists ((f, PyInt 0) :: extra). split; [|split; [|split]].
      * rewrite E, <- app_assoc. reflexivity.
      * constructor; [repeat split; [now left | exact Ec]|].
        eapply Forall_impl; [|exact Hall]. intros kv (H0 & Hin & Hc).
        repeat split; [exact H0 | now right | exact (proj1 (Hget _ Hc))].
      * simpl. constructor; [|exact Hnd].
        intros Hin. unfold columns in Hin. apply in_map_iff in Hin.
        destruct Hin as (kv & Hk & Hkv).
        rewrite Forall_forall in Hall. destruct (Hall kv Hkv) as (_ & _ & Hc).
        rewrite Hk in Hc. exact (proj2 (Hget f Hc) eq_refl).
      * intros n Hn Hc. destruct (string_dec f n) as [->|Hne]; [now left|].
        right. destruct Hn as [Hn|Hn]; [contradiction|].
        apply Hcov; [exact Hn|]. apply contains_false. rewrite get_app.
        apply contains_false in Hc. rewrite Hc. simpl.
        destruct (String.eqb_spec n f); [congruence | reflexivity].
Qed.

Lemma zero_fill_all_present (names : list string) (d : dict) :
  (forall n, In n names -> contains n d = true) -> zero_fill names d = d.
Proof.
  induction names as [|f rest IH]; intros Hall; [reflexivity|].
  simpl. rewrite (Hall f (or_introl eq_refl)). simpl.
  apply IH. intros n Hn. apply Hall. now right.
Qed.

Lemma zero_fill_contains (names : list string) (d : dict) (n : string) :
  In n names -> contains n (zero_fill names d) = true.
Proof.
  intros Hn. unfold contains. destruct (get n d) as [v|] eqn:E.
  - now rewrite (zero_fill_keeps names d n v E).
  - now rewrite (zero_fill_fills names d n Hn E).
Qed.

(** X2.  The zero-fill leaves the frame as it is exactly when every
    trained name is a column already. *)
Theorem zero_fill_identity_iff (names : list string) (d : dict) :
  zero_fill names d = d <-> forall n, In n names -> contains n d = true.
Proof.
  split; [|apply zero_fill_all_present].
  intros E n Hn. rewrite <- E. now apply zero_fill_contains.
Qed.

(** X3.  Filling twice with the same trained list changes nothing more. *)
Theorem zero_fill_idempotent (names : list string) (d : dict) :
  zero_fill names (zero_fill names d) = zero_fill names d.
Proof.
  apply zero_fill_all_present. intros n Hn. now apply zero_fill_contains.
Qed.

Lemma columns_setitem (k : string) (v : pyval) (d : dict) :
  columns (setitem k v d)
    = if contains k d then columns d else (columns d ++ [k])%list.
Proof.
  unfold contains. induction d as [|[k' v'] d IH]; simpl; [reflexivity|].
  destruct (String.eqb_spec k k') as [->|Hne]; simpl; [reflexivity|].
  rewrite IH. destruct (get k d); reflexivity.
Qed.

Lemma NoDup_snoc {A : Type} (l : list A) (x : A) :
  NoDup l -> ~ In x l -> NoDup (l ++ [x])%list.
Proof.
  intros Hl Hx. induction Hl as [|y l Hy Hl IH]; simpl.
  - constructor; [intros H; destruct H | constructor].
  - constructor.
    + rewrite in_app_iff. intros [H|[H|H]]; [now apply Hy | | destruct H].
      apply Hx. now left.
    + apply IH. intros H. apply Hx. now right.
Qed.

(** X4.  The zero-fill keeps the names of the columns distinct. *)
Theorem zero_fill_columns_distinct (names : list string) (d : dict) :
  NoDup (columns d) -> NoDup (columns (zero_fill names d)).
Proof.
  revert d. induction names as [|f rest IH]; intros d Hd; [exact Hd|].
  simpl. apply IH. destruct (contains f d) eqn:Ec; simpl; [exact Hd|].
  rewrite columns_setitem, Ec. apply NoDup_snoc; [exact Hd|].
  apply get_None_iff. now apply contains_false.
Qed.

Lemma zero_fill_columns_distinct_witness :
  NoDup (columns [("Age", PyInt 35)]) /\
  NoDup (columns (zero_fill ["Complain"; "Age"; "Complain"] [("Age", PyInt 35)])).
Proof.
  assert (H : NoDup (columns [("Age", PyInt 35)])).
  { simpl. constructor; [intros F; destruct F | constructor]. }
  split; [exact H|].
  exact (zero_fill_columns_distinct ["Complain"; "Age"; "Complain"] _ H).
Defined.

Lemma aligned_own_columns (d : dict) :
  NoDup (columns d) -> aligned (columns d) d = d.
Proof.
  induction d as [|[k v] d IH]; intros Hnd; [reflexivity|].
  simpl in Hnd. inversion Hnd as [|k0 l Hk Hd]; subst.
  unfold aligned. simpl. rewrite String.eqb_refl. f_equal.
  rewrite <- (IH Hd) at 2. unfold aligned. apply map_ext_in.
  intros n Hn. destruct (String.eqb_spec n k) as [->|_]; [contradiction|].
  reflexivity.
Qed.

(** X5.  A frame with distinct column names that is aligned to its own
    list of columns comes back unchanged: nothing is filled, dropped or
    moved. *)
Theorem align_own_columns (d : dict) :
  NoDup (columns d) -> select (columns d) (zero_fill (columns d) d) = Ok d.
Proof.
  intros Hnd. rewrite select_zero_fill. f_equal.
  now apply aligned_own_columns.
Qed.

Lemma align_own_columns_witness :
  NoDup (columns [("Age", PyInt 35); ("Tenure", PyInt 5)]) /\
  select ["Age"; "Tenure"]
    (zero_fill ["Age"; "Tenure"] [("Age", PyInt 35); ("Tenure", PyInt 5)])
    = Ok [("Age", PyInt 35); ("Tenure", PyInt 5)].
Proof.
  assert (H : NoDup (columns [("Age", PyInt 35); ("Tenure", PyInt 5)])).
  { simpl. constructor.
    - intros [F|F]; [discriminate F | destruct F].
    - constructor; [intros F; destruct F | constructor]. }
  split; [exact H|].
  exact (align_own_columns [("Age", PyInt 35); ("Tenure", PyInt 5)] H).
Defined.

(** ** The transform outside the ranges of the widgets *)

(** An int plus 0.01 is never zero. *)
Lemma balance_product_den_nonzero (r : CustomerRecord) :
  ~ (balance_product_den r == 0)%Q.
Proof.
  unfold balance_product_den, Qeq, Qplus. simpl. lia.
Qed.

Lemma balance_salary_den_zero_iff (r : CustomerRecord) :
  (balance_salary_den r == 0)%Q <-> (estimated_salary r == -1)%Q.
Proof. unfold balance_salary_den. split; intros H; lra. Qed.

Lemma truediv_raises (a b : Q) :
  (b == 0)%Q -> truediv a b = Raise ZeroDivisionError.
Proof.
  intros H. unfold truediv. now rewrite (Qeq_eq_bool _ _ H).
Qed.

(** X6.  For a record whose int fields fit in 64 bits, in or out of the
    ranges of the widgets, the only exception the transform can raise is
    [ZeroDivisionError], and it raises it exactly when Age is -1 or
    EstimatedSalary is -1; the division by NumOfProducts + 0.01 never
    raises. *)
Theorem input_data_raises_iff (r : CustomerRecord)
    (Hage : int64 (age r)) (Htenure : int64 (tenure r))
    (Hproducts : int64 (num_products r)) :
  (forall e, input_data r = Raise e -> e = ZeroDivisionError) /\
  ((exists e, input_data r = Raise e) <->
     age r = -1 \/ (estimated_salary r == -1)%Q) /\
  truediv (balance r) (balance_product_den r)
    = Ok (balance r / balance_product_den r)%Q.
Proof.
  pose proof (balance_product_den_nonzero r) as N2.
  pose proof (truediv_ok (balance r) _ N2) as E2.
  split; [|split; [|exact E2]].
  - intros e. unfold input_data, truediv_int. rewrite E2.
    destruct (tenure_age_den r =? 0); simpl; [congruence|].
    unfold truediv at 1.
    destruct (Qeq_bool (balance_salary_den r) 0); simpl; [congruence|].
    destruct (credit_category (credit_score r)). discriminate.
  - split.
    + intros [e He].
      destruct (Z.eq_dec (tenure_age_den r) 0) as [Z1|N1];
        [left; unfold tenure_age_den in Z1; lia|].
      destruct (Qeq_dec (balance_salary_den r) 0) as [Z3|N3];
        [right; now apply balance_salary_den_zero_iff|].
      rewrite (input_data_ok r N1 N2 N3) in He. discriminate He.
    + intros [Ha|Hs]; exists ZeroDivisionError; unfold input_data.
      * unfold truediv_int, tenure_age_den. rewrite Ha. reflexivity.
      * unfold truediv_int. destruct (tenure_age_den r =? 0); [reflexivity|].
        simpl. rewrite E2. simpl.
        rewrite truediv_raises by now apply balance_salary_den_zero_iff.
        reflexivity.
Qed.

Lemma input_data_raises_iff_witness :
  (int64 (age age_minus_one) /\ int64 (tenure age_minus_one) /\
   int64 (num_products age_minus_one)) /\
  exists e, input_data age_minus_one = Raise e.
Proof.
  assert (Ha : int64 (age age_minus_one)) by (unfold int64; simpl; lia).
  assert (Ht : int64 (tenure age_minus_one)) by (unfold int64; simpl; lia).
  assert (Hp : int64 (num_products age_minus_one))
    by (unfold int64; simpl; lia).
  split; [split; [exact Ha|split; [exact Ht|exact Hp]]|].
  apply (proj2 (proj1 (proj2 (input_data_raises_iff age_minus_one Ha Ht Hp)))).
  left. reflexivity.
Defined.

(** X7.  Whenever the transform returns, the two geography flags are never
    both 1: Germany gives (1,0), Spain gives (0,1) and any other value,
    France included, gives (0,0); the Gender flag is 1 for "Male" and 0 for
    any other value. *)
Theorem geography_one_hot (r : CustomerRecord) (d : dict)
    (Hd : input_data r = Ok d) :
  exists germany spain male : Z,
    get "Geography_Germany" d = Some (PyInt germany) /\
    get "Geography_Spain" d = Some (PyInt spain) /\
    get "Gender" d = Some (PyInt male) /\
    ((geography r = "Germany" /\ germany = 1 /\ spain = 0) \/
     (geography r = "Spain" /\ germany = 0 /\ spain = 1) \/
     (geography r <> "Germany" /\ geography r <> "Spain" /\
      germany = 0 /\ spain = 0)) /\
    indicator male (gender r = "Male").
Proof.
  apply input_data_inv in Hd. destruct Hd as (tar & bpp & bsr & ->).
  exists (if String.eqb (geography r) "Germany" then 1 else 0),
         (if String.eqb (geography r) "Spain" then 1 else 0),
         (if String.eqb (gender r) "Male" then 1 else 0).
  split; [reflexivity|]. split; [reflexivity|]. split; [reflexivity|]. split.
  - destruct (String.eqb_spec (geography r) "Germany") as [Eg|Ng].
    + left. rewrite Eg. repeat split.
    + destruct (String.eqb_spec (geography r) "Spain") as [Es|Ns].
      * right; left. repeat split. exact Es.
      * right; right. repeat split; assumption.
  - apply indicator_of_bool. apply String.eqb_eq.
Qed.

Lemma geography_one_hot_witness :
  exists d : dict,
    input_data scenario_A = Ok d /\
    get "Geography_Germany" d = Some (PyInt 0) /\
    get "Geography_Spain" d = Some (PyInt 0).
Proof.
  destruct (valid_record_divisors scenario_A scenario_A_valid) as (N1 & N2 & N3).
  pose proof (input_data_ok scenario_A N1 N2 N3) as Hd.
  eexists. split; [exact Hd|].
  destruct (geography_one_hot scenario_A _ Hd)
    as (g & s & m & Hg & Hs & _ & [(F & _)|[(F & _)|(_ & _ & -> & ->)]] & _);
    try discriminate F.
  split; [exact Hg | exact Hs].
Defined.

(** X8.  For a record with a zero balance the transform stores
    HighValueCustomer = 0 and zero for BalancePerProduct and
    BalanceSalaryRatio, and the zero-balance risk factor is listed. *)
Theorem zero_balance_features (r : CustomerRecord) (d : dict)
    (Hd : input_data r = Ok d) (Hzero : (balance r == 0)%Q) :
  get "HighValueCustomer" d = Some (PyInt 0) /\
  (exists bpp bsr : Q,
     get "BalancePerProduct" d = Some (PyFloat bpp) /\ (bpp == 0)%Q /\
     get "BalanceSalaryRatio" d = Some (PyFloat bsr) /\ (bsr == 0)%Q) /\
  In "• Zero balance (account not utilized)" (risk_factors r).
Proof.
  assert (N1 : tenure_age_den r <> 0).
  { intros Z1. unfold input_data, truediv_int in Hd.
    apply Z.eqb_eq in Z1. rewrite Z1 in Hd. discriminate Hd. }
  pose proof (balance_product_den_nonzero r) as N2.
  assert (N3 : ~ (balance_salary_den r == 0)%Q).
  { intros Z3. unfold input_data in Hd.
    rewrite (truediv_int_ok _ _ N1), (truediv_ok _ _ N2) in Hd. simpl in Hd.
    rewrite (truediv_raises _ _ Z3) in Hd. discriminate Hd. }
  rewrite (input_data_ok r N1 N2 N3) in Hd. injection Hd as <-.
  split; [|split].
  - simpl. unfold int_of_bool, Qgt_int.
    assert (L : Qle_bool (balance r) (inject_Z 100000) = true).
    { apply Qle_bool_iff. rewrite Hzero. unfold Qle; simpl; lia. }
    now rewrite L.
  - do 2 eexists. split; [reflexivity|]. split; [|split; [reflexivity|]].
    + rewrite Hzero. now field.
    + rewrite Hzero. now field.
  - assert (Z : Qeq_int (balance r) 0 = true) by now apply Qeq_int_iff.
    unfold risk_factors, append_if. rewrite Z.
    destruct (tenure r <? 2); rewrite !in_app_iff; simpl; tauto.
Qed.

Lemma zero_balance_features_witness :
  exists d : dict,
    input_data (scenario_B 0) = Ok d /\ (balance (scenario_B 0) == 0)%Q /\
    get "HighValueCustomer" d = Some (PyInt 0).
Proof.
  assert (N1 : tenure_age_den (scenario_B 0) <> 0) by (vm_compute; discriminate).
  assert (N3 : ~ (balance_salary_den (scenario_B 0) == 0)%Q)
    by (vm_compute; discriminate).
  pose proof (input_data_ok (scenario_B 0) N1
                (balance_product_den_nonzero _) N3) as Hd.
  assert (Hz : (balance (scenario_B 0) == 0)%Q) by reflexivity.
  eexists. split; [exact Hd|]. split; [exact Hz|].
  exact (proj1 (zero_balance_features (scenario_B 0) _ Hd Hz)).
Defined.

Lemma trained_names_distinct : NoDup trained_names.
Proof.
  unfold trained_names.
  repeat (constructor;
          [simpl; intros H;
           repeat (destruct H as [H|H]; [discriminate H|]); destruct H|]).
  constructor.
Qed.

(** X9.  Whenever the transform returns, its dict has the same 19 keys in
    the same order, whatever the record: the eleven raw fields, the six
    engineered features and the two credit flags, each once. *)
Theorem input_data_columns (r : CustomerRecord) (d : dict)
    (Hd : input_data r = Ok d) :
  columns d = trained_names /\ NoDup (columns d) /\ length d = 19%nat.
Proof.
  apply input_data_inv in Hd. destruct Hd as (tar & bpp & bsr & ->).
  split; [reflexivity|]. split; [exact trained_names_distinct | reflexivity].
Qed.

Lemma input_data_columns_witness :
  exists d : dict,
    input_data scenario_A = Ok d /\ columns d = trained_names.
Proof.
  destruct (valid_record_divisors scenario_A scenario_A_valid) as (N1 & N2 & N3).
  pose proof (input_data_ok scenario_A N1 N2 N3) as Hd.
  eexists. split; [exact Hd|].
  exact (proj1 (input_data_columns scenario_A _ Hd)).
Defined.

(** X10.  When the trained list is the list of the columns the transform
    produces, in its order, the frame handed to the classifier is the dict
    of the transform itself, and it fails exactly as the transform fails. *)
Theorem feature_vector_own_columns (r : CustomerRecord) :
  feature_vector (FeatureList trained_names) r = input_data r.
Proof.
  unfold feature_vector. destruct (input_data r) as [d|e] eqn:Hd;
    [|reflexivity].
  cbn [rbind iter]. rewrite select_zero_fill. f_equal.
  apply input_data_inv in Hd. destruct Hd as (tar & bpp & bsr & ->).
  apply (aligned_own_columns (feature_table r tar bpp bsr)).
  exact trained_names_distinct.
Qed.

(** X11.  For a list of trained names, whatever names it holds, and a
    record whose int fields fit in 64 bits, building the frame raises
    nothing but the [ZeroDivisionError] of the transform, and only when Age
    is -1 or EstimatedSalary is -1: the zero-fill and the selection of
    lines 147-152 never raise, [KeyError] included. *)
Theorem feature_vector_exceptions (names : list string) (r : CustomerRecord)
    (e : exn)
    (Hage : int64 (age r)) (Htenure : int64 (tenure r))
    (Hproducts : int64 (num_products r))
    (He : feature_vector (FeatureList names) r = Raise e) :
  e = ZeroDivisionError /\ input_data r = Raise e /\
  (age r = -1 \/ (estimated_salary r == -1)%Q).
Proof.
  unfold feature_vector in He. destruct (input_data r) as [d|e'] eqn:Hd.
  - cbn [rbind iter] in He. rewrite select_zero_fill in He. discriminate He.
  - cbn [rbind] in He. injection He as <-.
    destruct (Z.eq_dec (tenure_age_den r) 0) as [Z1|N1].
    + assert (Ee : e' = ZeroDivisionError).
      { unfold input_data, truediv_int in Hd. apply Z.eqb_eq in Z1.
        rewrite Z1 in Hd. simpl in Hd. now injection Hd as <-. }
      split; [exact Ee|]. split; [reflexivity|].
      left. unfold tenure_age_den in Z1. lia.
    + unfold input_data in Hd.
      rewrite (truediv_int_ok _ _ N1),
              (truediv_ok _ _ (balance_product_den_nonzero r)) in Hd.
      simpl in Hd. unfold truediv in Hd.
      destruct (Qeq_bool (balance_salary_den r) 0) eqn:Z3; simpl in Hd.
      * injection Hd as <-. split; [reflexivity|]. split; [reflexivity|].
        right. apply balance_salary_den_zero_iff. now apply Qeq_bool_iff.
      * destruct (credit_category (credit_score r)). discriminate Hd.
Qed.

Lemma feature_vector_exceptions_witness :
  (int64 (age age_minus_one) /\ int64 (tenure age_minus_one) /\
   int64 (num_products age_minus_one) /\
   feature_vector (FeatureList ["Age"; "Complain"]) age_minus_one
     = Raise ZeroDivisionError) /\
  age age_minus_one = -1.
Proof.
  assert (Ha : int64 (age age_minus_one)) by (unfold int64; simpl; lia).
  assert (Ht : int64 (tenure age_minus_one)) by (unfold int64; simpl; lia).
  assert (Hp : int64 (num_products age_minus_one))
    by (unfold int64; simpl; lia).
  assert (He : feature_vector (FeatureList ["Age"; "Complain"]) age_minus_one
               = Raise ZeroDivisionError) by reflexivity.
  split; [split; [exact Ha|split; [exact Ht|split; [exact Hp|exact He]]]|].
  destruct (feature_vector_exceptions ["Age"; "Complain"] age_minus_one
              ZeroDivisionError Ha Ht Hp He) as (_ & _ & [H|H]).
  - exact H.
  - reflexivity.
Defined.

(** ** Tiers, gauge and recommendation *)

Lemma displayed_level_cases (p : pyfloat) :
  (float_ge_int p 70 = true /\ displayed_level p = tier_name HIGH) \/
  (float_ge_int p 70 = false /\ float_ge_int p 40 = true /\
   displayed_level p = tier_name MEDIUM) \/
  (float_ge_int p 40 = false /\ displayed_level p = tier_name LOW).
Proof.
  unfold displayed_level.
  destruct (risk_level_cases p) as [[H E]|[[H [H' E]]|[H [H' E]]]]; rewrite E.
  - left. split; [exact H | reflexivity].
  - right; left. repeat split; assumption.
  - right; right. split; [exact H' | reflexivity].
Qed.

(** X12.  The tier never goes down when the churn probability goes up. *)
Theorem risk_tier_monotone (q q' : Q) (t t' : RiskTier) :
  (q <= q')%Q ->
  displayed_level (Finite q) = tier_name t ->
  displayed_level (Finite q') = tier_name t' ->
  (band_of_tier t <= band_of_tier t')%nat.
Proof.
  intros Hle Ht Ht'.
  destruct (displayed_level_cases (Finite q)) as [[A E]|[[A [B E]]|[B E]]];
    rewrite E in Ht; apply tier_name_inj in Ht; subst t;
    destruct (displayed_level_cases (Finite q')) as [[A' E']|[[A' [B' E']]|[B' E']]];
    rewrite E' in Ht'; apply tier_name_inj in Ht'; subst t'; simpl; try lia;
    exfalso;
    repeat match goal with
           | H : float_ge_int (Finite _) _ = true |- _ =>
               apply float_ge_int_finite in H
           | H : float_ge_int (Finite _) _ = false |- _ =>
               apply float_ge_int_finite_false in H
           end;
    change (inject_Z 70) with 70%Q in *; change (inject_Z 40) with 40%Q in *;
    lra.
Qed.

Lemma risk_tier_monotone_witness :
  ((45 <= 72)%Q /\
   displayed_level (Finite 45) = tier_name MEDIUM /\
   displayed_level (Finite 72) = tier_name HIGH) /\
  (band_of_tier MEDIUM <= band_of_tier HIGH)%nat.
Proof.
  assert (H : (45 <= 72)%Q) by (unfold Qle; simpl; lia).
  split; [repeat split; exact H|].
  exact (risk_tier_monotone 45 72 MEDIUM HIGH H eq_refl eq_refl).
Defined.

(** X13.  No value is rejected by the tiering.  LOW is the branch of every
    value that does not reach 40, so NaN, minus infinity and negative
    percentages are shown as LOW RISK with the standard-engagement block,
    and plus infinity and percentages above 100 as HIGH RISK with the
    urgent block. *)
Theorem risk_level_out_of_range (p : pyfloat) :
  (displayed_level p = tier_name LOW <-> float_ge_int p 40 = false) /\
  (displayed_level p = tier_name HIGH <-> float_ge_int p 70 = true) /\
  (p = NaN \/ p = NegInf \/ (exists q, p = Finite q /\ (q < 0)%Q) ->
   displayed_level p = tier_name LOW /\
   recommendation p = (text_variant LOW, Ok tt)) /\
  (p = PosInf \/ (exists q, p = Finite q /\ (100 < q)%Q) ->
   displayed_level p = tier_name HIGH /\
   recommendation p = (text_variant HIGH, Ok tt)).
Proof.
  assert (L : float_ge_int p 40 = false ->
              displayed_level p = tier_name LOW /\
              recommendation p = (text_variant LOW, Ok tt)).
  { intros H40. assert (H70 : float_ge_int p 70 = false).
    { destruct (float_ge_int p 70) eqn:E; [|reflexivity].
      apply float_ge_70_40 in E. congruence. }
    unfold displayed_level, risk_level, recommendation.
    rewrite H70, H40. split; reflexivity. }
  assert (U : float_ge_int p 70 = true ->
              displayed_level p = tier_name HIGH /\
              recommendation p = (text_variant HIGH, Ok tt)).
  { intros H70. unfold displayed_level, risk_level, recommendation.
    rewrite H70. split; reflexivity. }
  split; [|split; [|split]].
  - split; [|intros H; exact (proj1 (L H))].
    intros E. destruct (displayed_level_cases p) as [[_ E']|[[_ [_ E']]|[B _]]];
      [rewrite E' in E; discriminate E | rewrite E' in E; discriminate E
      | exact B].
  - split; [|intros H; exact (proj1 (U H))].
    intros E. destruct (displayed_level_cases p) as [[A _]|[[_ [_ E']]|[_ E']]];
      [exact A | rewrite E' in E; discriminate E
      | rewrite E' in E; discriminate E].
  - intros [->|[->|(q & -> & Hq)]]; apply L; try reflexivity.
    apply float_ge_int_finite_false. change (inject_Z 40) with 40%Q. lra.
  - intros [->|(q & -> & Hq)]; apply U; try reflexivity.
    apply float_ge_int_finite. change (inject_Z 70) with 70%Q. lra.
Qed.

Lemma risk_level_out_of_range_witness :
  (NaN = NaN \/ NaN = NegInf \/ (exists q, NaN = Finite q /\ (q < 0)%Q)) /\
  displayed_level NaN = tier_name LOW.
Proof.
  assert (H : NaN = NaN \/ NaN = NegInf \/
              (exists q, NaN = Finite q /\ (q < 0)%Q)) by (left; reflexivity).
  split; [exact H|].
  exact (proj1 (proj1 (proj2 (proj2 (risk_level_out_of_range NaN))) H)).
Defined.

(** X14.  The gauge and the tiers use the same cut-offs: a percentage in
    [0,100] lies inside the band of the gauge that has the position of its
    tier; the bands are laid end to end from 0 to the end of the axis;
    and a value reaches the threshold line of the gauge exactly when its
    tier is HIGH. *)
Theorem gauge_bands_match_tiers (q : Q) (t : RiskTier)
    (Hq : (0 <= q /\ q <= inject_Z gauge_axis_max)%Q)
    (Ht : displayed_level (Finite q) = tier_name t) :
  (exists lo hi colour,
     nth_error gauge_steps (band_of_tier t) = Some (lo, hi, colour) /\
     (inject_Z lo <= q /\ q <= inject_Z hi)%Q) /\
  map (fun s => fst (fst s)) gauge_steps = [0; 40; 70] /\
  map (fun s => snd (fst s)) gauge_steps = [40; 70; gauge_axis_max] /\
  (float_ge_int (Finite q) gauge_threshold = true <-> t = HIGH).
Proof.
  destruct Hq as [H0 H100]. change (inject_Z gauge_axis_max) with 100%Q in H100.
  destruct (displayed_level_cases (Finite q)) as [[A E]|[[A [B E]]|[B E]]];
    rewrite E in Ht; apply tier_name_inj in Ht; subst t;
    (split; [|split; [reflexivity|split; [reflexivity|]]]).
  - apply float_ge_int_finite in A. change (inject_Z 70) with 70%Q in A.
    exists 70, 100, "#ffcdd2". split; [reflexivity|].
    change (inject_Z 70) with 70%Q; change (inject_Z 100) with 100%Q. lra.
  - unfold gauge_threshold. rewrite A. split; reflexivity.
  - apply float_ge_int_finite_false in A. apply float_ge_int_finite in B.
    change (inject_Z 70) with 70%Q in A. change (inject_Z 40) with 40%Q in B.
    exists 40, 70, "#fff9c4". split; [reflexivity|].
    change (inject_Z 70) with 70%Q; change (inject_Z 40) with 40%Q. lra.
  - unfold gauge_threshold. rewrite A. split; discriminate.
  - apply float_ge_int_finite_false in B. change (inject_Z 40) with 40%Q in B.
    exists 0, 40, "#c8e6c9". split; [reflexivity|].
    change (inject_Z 0) with 0%Q; change (inject_Z 40) with 40%Q. lra.
  - unfold gauge_threshold.
    destruct (float_ge_int (Finite q) 70) eqn:A.
    + apply float_ge_70_40 in A. congruence.
    + split; discriminate.
Qed.

Lemma gauge_bands_match_tiers_witness :
  ((0 <= 55 /\ 55 <= inject_Z gauge_axis_max)%Q /\
   displayed_level (Finite 55) = tier_name MEDIUM) /\
  exists lo hi colour,
    nth_error gauge_steps (band_of_tier MEDIUM) = Some (lo, hi, colour) /\
    (inject_Z lo <= 55 /\ 55 <= inject_Z hi)%Q.
Proof.
  assert (H : (0 <= 55 /\ 55 <= inject_Z gauge_axis_max)%Q)
    by (split; unfold Qle; simpl; lia).
  split; [split; [exact H | reflexivity]|].
  exact (proj1 (gauge_bands_match_tiers 55 MEDIUM H eq_refl)).
Defined.

(** ** The profile summary and the risk factors *)

Lemma profile_summary_ok (r : CustomerRecord) :
  num_products r <> 0 -> age r + 1 <> 0 ->
  profile_summary r
    = ([st_profile (balance r / inject_Z (num_products r))
          (inject_Z (tenure r) / inject_Z (age r + 1))], Ok tt).
Proof.
  intros Hn Ha. unfold profile_summary.
  rewrite truediv_ok, (truediv_int_ok _ _ Ha); [reflexivity|].
  unfold Qeq. simpl. lia.
Qed.

(** X15.  For a record within the ranges of the widgets the profile
    summary shows the Tenure/Age ratio that the classifier receives, but
    its "Balance per Product" is Balance/NumOfProducts, not the feature
    Balance/(NumOfProducts+0.01): the shown value is never below the
    feature, and the two agree only when the balance is zero. *)
Theorem profile_indicators (r : CustomerRecord) (Hr : valid_record r) :
  exists (shown_bpp shown_tar feature_bpp : Q) (d : dict),
    profile_summary r = ([st_profile shown_bpp shown_tar], Ok tt) /\
    input_data r = Ok d /\
    get "TenureAgeRatio" d = Some (PyFloat shown_tar) /\
    get "BalancePerProduct" d = Some (PyFloat feature_bpp) /\
    (feature_bpp <= shown_bpp)%Q /\
    ((feature_bpp == shown_bpp)%Q <-> (balance r == 0)%Q).
Proof.
  destruct (valid_record_divisors r Hr) as (N1 & N2 & N3).
  destruct Hr as (_ & _ & _ & Hage & _ & (Hb0 & _) & Hproducts & _).
  apply products_range in Hproducts.
  assert (Hn : (1 <= inject_Z (num_products r))%Q).
  { change 1%Q with (inject_Z 1). rewrite <- Zle_Qle. lia. }
  assert (Nn : ~ (inject_Z (num_products r) == 0)%Q) by (intros E; lra).
  set (n := inject_Z (num_products r)) in *.
  set (b := balance r) in *.
  assert (Ex : (b / (n + 0.01) * n + b / (n + 0.01) * 0.01 == b)%Q).
  { field. intros E. lra. }
  assert (Ey : (b / n * n == b)%Q) by (field; exact Nn).
  assert (X0 : (0 <= b / (n + 0.01))%Q).
  { apply Qle_shift_div_l; lra. }
  exists (b / n)%Q, (inject_Z (tenure r) / inject_Z (age r + 1))%Q,
         (b / (n + 0.01))%Q.
  eexists.
  split; [apply profile_summary_ok; lia|].
  split; [exact (input_data_ok r N1 N2 N3)|].
  split; [reflexivity|]. split; [reflexivity|].
  assert (Le : (b / (n + 0.01) <= b / n)%Q).
  { apply Qle_shift_div_l; [lra|]. lra. }
  split; [exact Le|]. split.
  - intros E. rewrite <- E in Ey.
    assert (X : (b / (n + 0.01) == 0)%Q) by lra.
    rewrite X in Ey. lra.
  - intros Z. rewrite Z. unfold Qdiv. rewrite !Qmult_0_l. reflexivity.
Qed.

Lemma profile_indicators_witness :
  valid_record scenario_A /\
  exists shown_bpp shown_tar : Q,
    profile_summary scenario_A = ([st_profile shown_bpp shown_tar], Ok tt).
Proof.
  split; [exact scenario_A_valid|].
  destruct (profile_indicators scenario_A scenario_A_valid)
    as (x & y & _ & _ & H & _).
  exists x, y. exact H.
Defined.

(** X16.  The line "No significant risk factors identified" is shown
    exactly when none of the six rules holds: the age is at most 45, the
    geography is not Germany, there are fewer than 3 products, the member
    is active, the balance is not zero and the tenure is at least 2. *)
Theorem no_risk_factors_iff (r : CustomerRecord) :
  show_risk_factors (risk_factors r)
    = ([st_markdown "No significant risk factors identified"], Ok tt) <->
  age r <= 45 /\ geography r <> "Germany" /\ num_products r < 3 /\
  is_active r = true /\ ~ (balance r == 0)%Q /\ 2 <= tenure r.
Proof.
  unfold risk_factors, append_if.
  destruct (Z.ltb_spec 45 (age r)) as [A|A];
    destruct (String.eqb_spec (geography r) "Germany") as [G|G];
    destruct (Z.leb_spec 3 (num_products r)) as [P|P];
    destruct (is_active r) eqn:I;
    destruct (Qeq_int (balance r) 0) eqn:B;
    destruct (Z.ltb_spec (tenure r) 2) as [T|T];
    simpl;
    try (apply Qeq_int_iff in B; change (inject_Z 0) with 0%Q in B);
    (split;
     [ intros H; try discriminate H
     | intros (H1 & H2 & H3 & H4 & H5 & H6);
       try lia; try contradiction; try discriminate H4 ]).
  - repeat split; try lia; try assumption.
    intros Z. apply (Qeq_int_iff (balance r) 0) in Z. congruence.
  - reflexivity.
Qed.

(** ** Answered and unanswered requests *)


Lemma show_risk_factors_lines (r : CustomerRecord) :
  show_risk_factors (risk_factors r) = (factor_lines r, Ok tt).
Proof.
  unfold show_risk_factors, factor_lines.
  destruct (risk_factors r) as [|f rest]; [reflexivity|].
  apply markdown_each_trace.
Qed.





Lemma flat_map_markdown {B : Type} (g : event -> list B) (l : list string) :
  (forall s, g (st_markdown s) = []) -> flat_map g (map st_markdown l) = [].
Proof.
  intros H. induction l as [|s l IH]; [reflexivity|].
  simpl. now rewrite H, IH.
Qed.

Lemma flat_map_factor_lines {B : Type} (g : event -> list B)
    (r : CustomerRecord) :
  (forall s, g (st_markdown s) = []) -> flat_map g (factor_lines r) = [].
Proof.
  intros H. unfold factor_lines. destruct (risk_factors r) as [|s l].
  - simpl. now rewrite H.
  - now apply flat_map_markdown.
Qed.

Lemma recommendation_trace_cases (p : pyfloat) :
  (float_ge_int p 70 = true /\
   trace (recommendation p) = text_variant HIGH) \/
  (float_ge_int p 70 = false /\
   (trace (recommendation p) = text_variant MEDIUM \/
    trace (recommendation p) = text_variant LOW)).
Proof.
  unfold recommendation. destruct (float_ge_int p 70); [left; auto|].
  right. split; [reflexivity|].
  destruct (float_ge_int p 40); [left | right]; reflexivity.
Qed.









(** X20.  A run in which the button was not pressed shows the welcome page
    and ends normally whatever the two pickles hold: the record is not
    transformed, the list of names is not iterated and the classifier is
    not called, so a features object that cannot be iterated or a
    classifier that always raises goes unnoticed until a prediction is
    requested. *)
Theorem welcome_run (fs : artifacts) (ui : session) (m : Model)
    (f : features_obj)
    (Hm : model_file fs = Pickled m) (Hf : features_file fs = Pickled f)
    (Hb : predict_button ui = false) :
  app fs ui = ((run_prefix ++ [st_welcome; st_footer])%list, Ok tt).
Proof.
  unfold app. rewrite (load_model_ok fs m f Hm Hf), Hb. reflexivity.
Qed.

Lemma welcome_run_witness :
  (model_file features_not_a_list = Pickled constant_model /\
   features_file features_not_a_list = Pickled (NotIterable "NoneType") /\
   predict_button (browse scenario_A) = false) /\
  app features_not_a_list (browse scenario_A)
    = ((run_prefix ++ [st_welcome; st_footer])%list, Ok tt).
Proof.
  split; [repeat split|].
  exact (welcome_run features_not_a_list (browse scenario_A) constant_model
           (NotIterable "NoneType") eq_refl eq_refl eq_refl).
Defined.

(** ** What a run opens and when it shows a prediction *)

Lemma opened_bind {A B : Type} (m : script A) (k : A -> script B) :
  opened (trace (bind m k))
    = (opened (trace m)
       ++ match outcome m with
          | Ok a => opened (trace (k a))
          | Raise _ => []
          end)%list.
Proof.
  destruct m as [t [a|e]]; unfold bind, trace, outcome, opened; simpl.
  - destruct (k a) as [t' r]. simpl. apply flat_map_app.
  - now rewrite app_nil_r.
Qed.

(** A step that opens nothing, followed by steps that open nothing, opens
    nothing. *)
Lemma quiet_bind {A B : Type} (m : script A) (k : A -> script B) :
  opened (trace m) = [] -> (forall a, opened (trace (k a)) = []) ->
  opened (trace (bind m k)) = [].
Proof.
  intros Hm Hk. rewrite opened_bind, Hm.
  destruct (outcome m); [apply Hk | reflexivity].
Qed.

Lemma quiet_lift {A : Type} (x : result A) : opened (trace (lift x)) = [].
Proof. reflexivity. Qed.

Lemma opened_recommendation (p : pyfloat) :
  opened (trace (recommendation p)) = [].
Proof.
  destruct (recommendation_trace_cases p) as [[_ ->]|[_ [->| ->]]];
    reflexivity.
Qed.

Lemma opened_profile_summary (r : CustomerRecord) :
  opened (trace (profile_summary r)) = [].
Proof.
  unfold profile_summary.
  repeat (apply quiet_bind; [try apply quiet_lift|intros]); reflexivity.
Qed.

Lemma opened_show_risk_factors (r : CustomerRecord) :
  opened (trace (show_risk_factors (risk_factors r))) = [].
Proof.
  rewrite show_risk_factors_lines. unfold trace, opened. cbn [fst].
  now apply flat_map_factor_lines.
Qed.

Lemma opened_render (probability : list pyfloat) (cp : pyfloat)
    (r : CustomerRecord) :
  opened (trace (render probability cp r)) = [].
Proof.
  unfold render. destruct (risk_level cp) as [[level color] class].
  repeat (apply quiet_bind;
          [first [ apply quiet_lift | apply opened_recommendation
                 | apply opened_profile_summary | reflexivity ]
          |intros]).
  apply opened_show_risk_factors.
Qed.

Lemma opened_predict_page (m : Model) (f : features_obj) (r : CustomerRecord) :
  opened (trace (predict_page m f r)) = [].
Proof.
  unfold predict_page. apply quiet_bind; [apply quiet_lift|]. intros df.
  unfold predict_and_render, try_except.
  destruct (classify m df) as [[[y probability] cp]|e].
  - rewrite bind_lift_ok.
    pose proof (opened_render probability cp r) as H.
    destruct (render probability cp r) as [t [[]|e]]; cbn [trace fst] in *.
    + exact H.
    + destruct (is_Exception e); [|exact H].
      unfold prediction_error, bind, emit. simpl.
      unfold opened in *. rewrite flat_map_app, H. reflexivity.
  - rewrite bind_lift_raise. destruct (is_Exception e); reflexivity.
Qed.

Lemma opened_script_run (load : script (Model * features_obj))
    (ui : session) :
  opened (trace (script_run load ui)) = opened (trace load).
Proof.
  unfold script_run. rewrite opened_bind. cbn [emit trace outcome fst snd].
  change (opened [st_page_setup]) with (@nil string). cbn [app].
  rewrite opened_bind. destruct (outcome load) as [[m f]|e];
    [|now rewrite app_nil_l, app_nil_r].
  rewrite app_nil_l.
  transitivity (opened (trace load) ++ [])%list; [|apply app_nil_r].
  f_equal.
  repeat (apply quiet_bind;
          [first [ reflexivity
                 | destruct (predict_button ui);
                   [apply opened_predict_page | reflexivity] ]
          |intros]).
  reflexivity.
Qed.

(** Once the pair is in the cache, no later run opens a file, whatever
    has become of the files. *)
Lemma session_warm_quiet (loaded : Model * features_obj)
    (steps : list (artifacts * session)) :
  flat_map (fun run => opened (trace run)) (session_runs (Some loaded) steps)
    = [].
Proof.
  induction steps as [|[fs ui] rest IH]; [reflexivity|].
  cbn [session_runs flat_map].
  change (snd (rerun (Some loaded) fs ui)) with (Some loaded).
  rewrite IH, app_nil_r. unfold rerun. cbn [fst].
  rewrite opened_script_run. reflexivity.
Qed.

(** X21.  Under the resource cache of line 53: a run that finds the loaded
    pair in the cache opens no file; a run with an empty cache opens the
    model file first and once, and the features file after it, once,
    exactly when the model file unpickled, and nothing else; the pair is in
    the cache afterwards exactly when both files unpickled, so a load that
    failed is attempted again by the next run; and in a session whose
    first run loads both artifacts each file is opened once in all,
    whatever the later runs are. *)
Theorem run_opens_artifacts_once (cache : resource_cache) (fs : artifacts)
    (ui : session) :
  opened (trace (fst (rerun cache fs ui)))
    = match cache with
      | Some _ => []
      | None => match model_file fs with
                | Pickled _ => [model_path; features_path]
                | _ => [model_path]
                end
      end /\
  snd (rerun cache fs ui)
    = match cache with
      | Some loaded => Some loaded
      | None => match model_file fs, features_file fs with
                | Pickled m, Pickled f => Some (m, f)
                | _, _ => None
                end
      end /\
  (forall m f steps,
     model_file fs = Pickled m -> features_file fs = Pickled f ->
     flat_map (fun run => opened (trace run))
       (session_runs None ((fs, ui) :: steps))
       = [model_path; features_path]).
Proof.
  assert (O : opened (trace (load_model fs))
              = match model_file fs with
                | Pickled _ => [model_path; features_path]
                | _ => [model_path]
                end).
  { unfold load_model. destruct (model_file fs) as [| |m]; try reflexivity.
    destruct (features_file fs) as [| |f]; reflexivity. }
  assert (C : snd (cached_load_model None fs)
              = match model_file fs, features_file fs with
                | Pickled m, Pickled f => Some (m, f)
                | _, _ => None
                end).
  { cbn [cached_load_model snd]. unfold load_model.
    destruct (model_file fs) as [| |m]; try reflexivity.
    destruct (features_file fs) as [| |f]; reflexivity. }
  split; [|split].
  - unfold rerun. cbn [fst]. rewrite opened_script_run.
    destruct cache as [loaded|]; [reflexivity | exact O].
  - unfold rerun. cbn [snd].
    destruct cache as [loaded|]; [reflexivity | exact C].
  - intros m f steps Hm Hf. cbn [session_runs flat_map].
    unfold rerun at 2. cbn [snd]. rewrite C, Hm, Hf.
    rewrite session_warm_quiet, app_nil_r.
    unfold rerun. cbn [fst]. rewrite opened_script_run.
    cbn [cached_load_model fst]. rewrite O, Hm. reflexivity.
Qed.





(** * Failures *)

(** ** The script under the resource cache *)

Lemma app_script_run (fs : artifacts) (ui : session) :
  app fs ui = script_run (load_model fs) ui.
Proof. reflexivity. Qed.

Lemma rerun_cold (fs : artifacts) (ui : session) :
  fst (rerun None fs ui) = app fs ui.
Proof. reflexivity. Qed.

(** A call of [load_model] that returns either found the pair in the cache
    and opened nothing, or unpickled both files. *)
Lemma cached_load_ok (cache : resource_cache) (fs : artifacts) (m : Model)
    (f : features_obj) :
  outcome (fst (cached_load_model cache fs)) = Ok (m, f) ->
  (cache = Some (m, f) /\
   cached_load_model cache fs = (([], Ok (m, f)), Some (m, f))) \/
  (cache = None /\ model_file fs = Pickled m /\ features_file fs = Pickled f /\
   cached_load_model cache fs
     = (([io_open model_path; io_open features_path], Ok (m, f)),
        Some (m, f))).
Proof.
  destruct cache as [[m' f']|]; simpl.
  - intros H. injection H as -> ->. left. split; reflexivity.
  - intros H. right. split; [reflexivity|].
    unfold load_model in *.
    destruct (model_file fs) as [| |m'] eqn:Hm; try discriminate H.
    destruct (features_file fs) as [| |f'] eqn:Hf; try discriminate H.
    simpl in H. injection H as -> ->. repeat split.
Qed.


Lemma script_run_loaded (t0 : list event) (m : Model) (f : features_obj)
    (ui : session) :
  predict_button ui = true ->
  script_run (t0, Ok (m, f)) ui =
    (emit st_page_setup ;; (t0, Ok tt) ;; emit st_header ;;
     emit st_sidebar_inputs ;; predict_page m f (inputs ui) ;;
     emit st_footer).
Proof.
  intros Hb. unfold script_run. rewrite Hb. unfold bind, emit. simpl.
  destruct (predict_page m f (inputs ui)) as [t [[]|e]]; reflexivity.
Qed.

Lemma script_run_classify_raises (t0 : list event) (m : Model)
    (f : features_obj) (ui : session) (df : dict) (e : exn) :
  predict_button ui = true ->
  feature_vector f (inputs ui) = Ok df ->
  classify m df = Raise e -> is_Exception e = true ->
  script_run (t0, Ok (m, f)) ui
    = ((st_page_setup
        :: t0
        ++ [st_header; st_sidebar_inputs;
            st_error ("Prediction error: " ++ str e)%string;
            st_info "Please check that all features match your trained model.";
            st_footer])%list, Ok tt).
Proof.
  intros Hb Hdf Hc He. rewrite (script_run_loaded t0 m f ui Hb).
  unfold predict_page, predict_and_render. rewrite Hdf.
  unfold bind, lift, emit, try_except. rewrite Hc, He. reflexivity.
Qed.

Lemma valid_record_frame (names : list string) (r : CustomerRecord) :
  valid_record r ->
  exists df, feature_vector (FeatureList names) r = Ok df.
Proof.
  intros Hv. destruct (valid_record_divisors r Hv) as (N1 & N2 & N3).
  eexists. apply feature_vector_aligned. exact (input_data_ok r N1 N2 N3).
Qed.

(** C3.  For a record within the ranges of the widgets and a list of
    trained names, whether the artifacts were just loaded or came from the
    cache: an [Exception] raised while the frame is built or while the
    classifier is called is caught by the script, which shows "Prediction
    error: ..." and the hint; nothing of a prediction is shown; the run
    goes on to the footer and ends normally, so nothing is left for the
    host to report, and the artifacts stay in the cache for the next
    request.  Building the frame raises nothing for such a record. *)
Theorem inference_failure_caught (cache : resource_cache) (fs : artifacts)
    (ui : session) (m : Model) (names : list string) (e : exn)
    (Hload : outcome (fst (cached_load_model cache fs))
             = Ok (m, FeatureList names))
    (Hb : predict_button ui = true)
    (Hv : valid_record (inputs ui))
    (He : is_Exception e = true)
    (Hraised :
       feature_vector (FeatureList names) (inputs ui) = Raise e \/
       exists input_df,
         feature_vector (FeatureList names) (inputs ui) = Ok input_df /\
         classify m input_df = Raise e) :
  fst (rerun cache fs ui)
    = ((st_page_setup
        :: trace (fst (cached_load_model cache fs))
        ++ [st_header; st_sidebar_inputs;
            st_error ("Prediction error: " ++ str e)%string;
            st_info "Please check that all features match your trained model.";
            st_footer])%list, Ok tt) /\
  caught_and_reported (fst (rerun cache fs ui)) /\
  host_exception_box (fst (rerun cache fs ui)) = None /\
  snd (rerun cache fs ui) = Some (m, FeatureList names) /\
  (cache = None -> fst (rerun cache fs ui) = app fs ui) /\
  (exists input_df,
     feature_vector (FeatureList names) (inputs ui) = Ok input_df).
Proof.
  destruct (valid_record_frame names (inputs ui) Hv) as (df0 & Hdf0).
  assert (Hc : exists df, feature_vector (FeatureList names) (inputs ui) = Ok df
                          /\ classify m df = Raise e).
  { destruct Hraised as [Hr|Hc]; [|exact Hc]. rewrite Hdf0 in Hr.
    discriminate Hr. }
  destruct Hc as (df & Hdf & Hc).
  assert (E : forall t0,
    fst (cached_load_model cache fs) = (t0, Ok (m, FeatureList names)) ->
    fst (rerun cache fs ui)
      = ((st_page_setup
          :: t0
          ++ [st_header; st_sidebar_inputs;
              st_error ("Prediction error: " ++ str e)%string;
              st_info "Please check that all features match your trained model.";
              st_footer])%list, Ok tt)).
  { intros t0 Ht0. unfold rerun. cbn [fst]. rewrite Ht0.
    exact (script_run_classify_raises t0 m _ ui df e Hb Hdf Hc He). }
  destruct (cached_load_ok cache fs m _ Hload)
    as [(Hcache & Hl)|(Hcache & Hm & Hf & Hl)].
  - pose proof (E [] (f_equal fst Hl)) as Erun.
    rewrite Erun. unfold rerun. rewrite Hl. cbn [fst snd trace].
    split; [reflexivity|]. split; [repeat split|]. split; [reflexivity|].
    split; [reflexivity|]. split; [|exists df0; exact Hdf0].
    intros Hn. rewrite Hn in Hcache. discriminate Hcache.
  - pose proof (E _ (f_equal fst Hl)) as Erun.
    assert (Eapp : fst (rerun cache fs ui) = app fs ui)
      by (rewrite Hcache; reflexivity).
    rewrite <- Eapp, Erun. unfold rerun. rewrite Hl. cbn [fst snd trace].
    split; [reflexivity|]. split; [repeat split|]. split; [reflexivity|].
    split; [reflexivity|]. split; [reflexivity|exists df0; exact Hdf0].
Qed.

Lemma inference_failure_caught_witness :
  (outcome (fst (cached_load_model None failing_classifier))
     = Ok (failing_model, FeatureList trained_names) /\
   predict_button (submit scenario_A) = true /\
   valid_record (inputs (submit scenario_A)) /\
   is_Exception (ModelError "X has 3 features, but RandomForestClassifier is expecting 19 features as input.") = true) /\
  caught_and_reported (fst (rerun None failing_classifier (submit scenario_A))).
Proof.
  split; [split; [reflexivity|split; [reflexivity|split;
    [exact scenario_A_valid|reflexivity]]]|].
  destruct (valid_record_frame trained_names scenario_A scenario_A_valid)
    as (df & Hdf).
  refine (proj1 (proj2
    (inference_failure_caught None failing_classifier (submit scenario_A)
       failing_model trained_names
       (ModelError "X has 3 features, but RandomForestClassifier is expecting 19 features as input.")
       eq_refl eq_refl scenario_A_valid eq_refl _))).
  right. exists df. split; [exact Hdf | reflexivity].
Defined.

(** ** Start-up failure *)


